(** * crgodicom: the DCMTK wrapper stubs

    A shallow embedding of [internal/dcmtk/dcmtk_reader_wrapper.c] and
    [internal/dcmtk/dcmtk_writer_wrapper.c], and the properties of the
    DICOM codec specification checked against them.

    The two C functions communicate through pointers: the reader stores
    into caller-owned buffers and cells, the writer receives caller-owned
    buffers.  The embedding therefore keeps an explicit store of objects
    addressed by pointers, next to the file system that a DICOM codec
    would read from and write to, and runs the C statements in a state
    monad in which undefined behaviour (null or dangling pointer, buffer
    too small for [strcpy]) is the absence of a result.  Objects are
    typed and addressed as a whole: a call that is defined here is
    defined in C with the same effect, while stores that C defines
    through pointers into the middle of an array or into an object of
    another type are not modelled. *)

From Stdlib Require Import ZArith String Ascii Strings.Byte List Bool.
From stdpp Require Import base option list gmap strings.

Local Open Scope Z_scope.

(** ** The store *)

Module Store.

Definition block := positive.

(** A C pointer: [NULL] or the address of an object of the store.  A
    pointer addresses a whole object, from its first byte: the store has
    no pointers into the middle of an array, so two outputs share memory
    only by being the same pointer, and outputs that overlap in part are
    outside it. *)
Inductive ptr : Type :=
| NULL
| Ptr (b : block).

Arguments Ptr b%_positive.

#[global] Instance ptr_eq_dec : EqDecision ptr.
Proof. solve_decision. Defined.

(** The objects the two wrappers touch: character arrays
    ([char[]], [unsigned char[]]), [int] cells and pointer cells
    ([unsigned char*]). *)
Inductive object : Type :=
| CharBuf (bytes : list byte)
| IntCell (v : Z)
| PtrCell (p : ptr).

(** The state a call runs in: the files of the file system, by name, and
    the objects of the store, by block. *)
Record World : Type := mkWorld {
  files : gmap string (list byte);
  mem : gmap block object
}.

Definition set_mem (w : World) (m : gmap block object) : World :=
  {| files := files w; mem := m |}.

Definition obj_at (w : World) (p : ptr) : option object :=
  match p with
  | NULL => None
  | Ptr b => mem w !! b
  end.

(** What a store never changes about an object: its kind, and for an
    array its size. *)
Inductive shape : Type :=
| SBuf (n : nat)
| SInt
| SPtr.

Definition shape_of (o : object) : shape :=
  match o with
  | CharBuf bytes => SBuf (length bytes)
  | IntCell _ => SInt
  | PtrCell _ => SPtr
  end.

Definition shape_at (w : World) (p : ptr) : option shape :=
  shape_of <$> obj_at w p.

(** The C string held by an array: the bytes before the first NUL; an
    array without a NUL holds no string. *)
Fixpoint c_str (buf : list byte) : option (list byte) :=
  match buf with
  | [] => None
  | b :: rest =>
      if Byte.eqb b x00 then Some [] else cons b <$> c_str rest
  end.

Definition string_at (w : World) (p : ptr) : option string :=
  match obj_at w p with
  | Some (CharBuf buf) => string_of_list_byte <$> c_str buf
  | _ => None
  end.

Definition int_at (w : World) (p : ptr) : option Z :=
  match obj_at w p with
  | Some (IntCell v) => Some v
  | _ => None
  end.

Definition ptr_at (w : World) (p : ptr) : option ptr :=
  match obj_at w p with
  | Some (PtrCell q) => Some q
  | _ => None
  end.

End Store.

Export Store.

(** ** The monad of C statements *)

Module Stmt.

(** A statement maps the state to a result and a new state, or to nothing
    when its behaviour is undefined. *)
Definition M (A : Type) : Type := World -> option (A * World).

Definition ret {A} (a : A) : M A := fun w => Some (a, w).

Definition bind {A B} (m : M A) (k : A -> M B) : M B :=
  fun w =>
    match m w with
    | Some (a, w') => k a w'
    | None => None
    end.

(** [strcpy(dst, src)] for a string literal [src]: the bytes of [src] and
    the terminating NUL overwrite the start of the array at [dst]; the
    rest of the array is kept.  Writing past the end of the array, or
    through a null pointer or a pointer to no object, is undefined.  The
    store is typed: the character stores of [strcpy] into an [int] or a
    pointer object, which C defines when the object is large enough, are
    left undefined here as well, so what is defined here is defined in
    C with this effect, and not the converse. *)
Definition strcpy (dst : ptr) (src : string) : M unit :=
  fun w =>
    match dst with
    | Ptr b =>
        match mem w !! b with
        | Some (CharBuf buf) =>
            let s := list_byte_of_string src in
            if decide (length s + 1 <= length buf)%nat
            then Some (tt, set_mem w (<[b := CharBuf (s ++ x00 :: drop (length s + 1) buf)]> (mem w)))
            else None
        | _ => None
        end
    | NULL => None
    end.

(** [*p = v] for [int *p]. *)
Definition store_int (p : ptr) (v : Z) : M unit :=
  fun w =>
    match p with
    | Ptr b =>
        match mem w !! b with
        | Some (IntCell _) => Some (tt, set_mem w (<[b := IntCell v]> (mem w)))
        | _ => None
        end
    | NULL => None
    end.

(** [*p = q] for [unsigned char **p]. *)
Definition store_ptr (p : ptr) (q : ptr) : M unit :=
  fun w =>
    match p with
    | Ptr b =>
        match mem w !! b with
        | Some (PtrCell _) => Some (tt, set_mem w (<[b := PtrCell q]> (mem w)))
        | _ => None
        end
    | NULL => None
    end.

End Stmt.

Export Stmt.

Notation "m ;; k" := (bind m (fun _ => k))
  (at level 100, k at level 200, right associativity, only parsing).

(** ** The wrappers *)

(** [read_dicom_file_simple] of [dcmtk_reader_wrapper.c]. *)
Definition read_dicom_file_simple
    (filename patient_name patient_id
     study_uid series_uid instance_uid
     modality width height bits_per_pixel
     pixel_data pixel_data_length : ptr) : M Z :=
  strcpy patient_name "Test Patient" ;;
  strcpy patient_id "TEST001" ;;
  strcpy study_uid "1.2.3.4.5" ;;
  strcpy series_uid "1.2.3.4.5.1" ;;
  strcpy instance_uid "1.2.3.4.5.1.1" ;;
  strcpy modality "CT" ;;
  store_int width 512 ;;
  store_int height 512 ;;
  store_int bits_per_pixel 16 ;;
  store_ptr pixel_data NULL ;;
  store_int pixel_data_length 0 ;;
  ret 0.

(** [test_dcmtk_simple] of [dcmtk_reader_wrapper.c]. *)
Definition test_dcmtk_simple : M Z :=
  ret 42.

(** [write_dicom_file_simple] of [dcmtk_writer_wrapper.c]. *)
Definition write_dicom_file_simple
    (filename patient_name patient_id
     study_uid series_uid instance_uid modality : ptr)
    (width height bits_allocated : Z)
    (pixel_data : ptr) (pixel_data_length : Z) : M Z :=
  ret 0.

(** ** What a caller sees after a call *)

(** The values a caller reads back from the eleven outputs of
    [read_dicom_file_simple]. *)
Record ImageRecord : Type := mkImageRecord {
  rec_patient_name : string;
  rec_patient_id : string;
  rec_study_uid : string;
  rec_series_uid : string;
  rec_instance_uid : string;
  rec_modality : string;
  rec_width : Z;
  rec_height : Z;
  rec_bits_per_pixel : Z;
  rec_pixel_data : ptr;
  rec_pixel_data_length : Z
}.

Definition load_record
    (patient_name patient_id study_uid series_uid instance_uid
     modality width height bits_per_pixel
     pixel_data pixel_data_length : ptr) (w : World) : option ImageRecord :=
  pn ← string_at w patient_name;
  pid ← string_at w patient_id;
  st ← string_at w study_uid;
  se ← string_at w series_uid;
  ins ← string_at w instance_uid;
  mo ← string_at w modality;
  wd ← int_at w width;
  ht ← int_at w height;
  bpp ← int_at w bits_per_pixel;
  pd ← ptr_at w pixel_data;
  pdl ← int_at w pixel_data_length;
  Some (mkImageRecord pn pid st se ins mo wd ht bpp pd pdl).

(** The record the reader's comment calls dummy data. *)
Definition dummy_record : ImageRecord :=
  {| rec_patient_name := "Test Patient";
     rec_patient_id := "TEST001";
     rec_study_uid := "1.2.3.4.5";
     rec_series_uid := "1.2.3.4.5.1";
     rec_instance_uid := "1.2.3.4.5.1.1";
     rec_modality := "CT";
     rec_width := 512;
     rec_height := 512;
     rec_bits_per_pixel := 16;
     rec_pixel_data := NULL;
     rec_pixel_data_length := 0 |}.

(** The bytes of the file that the C string at [filename] names, if the
    string is there and the file exists. *)
Definition file_named (w : World) (filename : ptr) : option (list byte) :=
  name ← string_at w filename;
  files w !! name.

(** The array at [p] has room for the literal [s] and its NUL. *)
Definition can_hold (w : World) (p : ptr) (s : string) : Prop :=
  exists n, shape_at w p = Some (SBuf n) /\
            (length (list_byte_of_string s) + 1 <= n)%nat.

(** What [read_dicom_file_simple] needs of its outputs to be defined:
    arrays large enough for the six literals, three [int] cells, a
    pointer cell and a fourth [int] cell. *)
Definition valid_outputs (w : World)
    (patient_name patient_id study_uid series_uid instance_uid
     modality width height bits_per_pixel
     pixel_data pixel_data_length : ptr) : Prop :=
  can_hold w patient_name "Test Patient" /\
  can_hold w patient_id "TEST001" /\
  can_hold w study_uid "1.2.3.4.5" /\
  can_hold w series_uid "1.2.3.4.5.1" /\
  can_hold w instance_uid "1.2.3.4.5.1.1" /\
  can_hold w modality "CT" /\
  shape_at w width = Some SInt /\
  shape_at w height = Some SInt /\
  shape_at w bits_per_pixel = Some SInt /\
  shape_at w pixel_data = Some SPtr /\
  shape_at w pixel_data_length = Some SInt.

(** The eleven outputs, in the order the reader stores to them. *)
Definition output_list
    (patient_name patient_id study_uid series_uid instance_uid
     modality width height bits_per_pixel
     pixel_data pixel_data_length : ptr) : list ptr :=
  [patient_name; patient_id; study_uid; series_uid; instance_uid;
   modality; width; height; bits_per_pixel; pixel_data; pixel_data_length].

(** [w'] comes from [w] by stores through the pointers of [ps] only: the
    files are the same, every object has kept its shape, and the objects
    that no pointer of [ps] addresses are the same. *)
Definition writes (ps : list ptr) (w w' : World) : Prop :=
  files w' = files w /\
  (forall q, shape_at w' q = shape_at w q) /\
  (forall q, q ∉ ps -> obj_at w' q = obj_at w q).

(** A call succeeded: it is defined and returned 0, the value both
    wrappers' comments call success. *)
Definition succeeds (res : option (Z * World)) : Prop :=
  exists w', res = Some (0, w').

(** A call reported an error: it is defined and returned another value. *)
Definition reports_error (res : option (Z * World)) : Prop :=
  exists r w', res = Some (r, w') /\ r <> 0.

(** ** Notions of the specification that the source has no code for *)

#[global] Instance byte_eq_dec : EqDecision byte := Byte.byte_eq_dec.

(** Modelled from the spec: the magic test of the file-meta parser
    (section 4.1), absent from the source: bytes 128..132 of the input
    are the literal ASCII "DICM". *)
Definition has_dicm_magic (B : list byte) : bool :=
  bool_decide (take 4 (drop 128 B) = list_byte_of_string "DICM").

(** Modelled from the spec: the length of a conformant uncompressed pixel
    buffer (sections 3 and 4.4), absent from the source:
    rows x columns x bitsAllocated / 8 x samplesPerPixel x frames. *)
Definition conformant_pixel_length
    (rows columns bits_allocated samples_per_pixel frames : Z) : Z :=
  rows * columns * bits_allocated / 8 * samples_per_pixel * frames.

(** Modelled from the spec: the dot-separated components of a UID
    (section 3); no UID is taken apart in the source. *)
Fixpoint components (s : string) : list string :=
  match s with
  | EmptyString => [EmptyString]
  | String c rest =>
      if Ascii.eqb c "." then EmptyString :: components rest
      else match components rest with
           | comp :: more => String c comp :: more
           | [] => [String c EmptyString]
           end
  end.

(** Modelled from the spec: a character of a numeric component. *)
Definition is_digit (c : ascii) : bool :=
  (48 <=? nat_of_ascii c)%nat && (nat_of_ascii c <=? 57)%nat.

(** Modelled from the spec: a string of digits only. *)
Fixpoint all_digits (s : string) : bool :=
  match s with
  | EmptyString => true
  | String c rest => is_digit c && all_digits rest
  end.

(** Modelled from the spec: a numeric component: not empty, digits
    only, and no leading zero unless it is the literal "0". *)
Definition numeric_component (comp : string) : bool :=
  match comp with
  | EmptyString => false
  | String c EmptyString => is_digit c
  | String c _ => negb (Ascii.eqb c "0") && all_digits comp
  end.

(** Modelled from the spec: the UID invariant of section 3, which no
    code of the source checks: a dot-separated sequence of numeric
    components, at most 64 characters in all. *)
Definition uid_well_formed (uid : string) : bool :=
  (String.length uid <=? 64)%nat && forallb numeric_component (components uid).

(** Modelled from the spec: the unsigned value of bytes in little-endian
    order, as in the file-meta group (section 4.1). *)
Definition le_value (bs : list byte) : Z :=
  foldr (fun b acc => Z.of_N (Byte.to_N b) + 256 * acc) 0 bs.

(** Modelled from the spec: the value of the file-meta group-length
    element (0002,0000) of a Part-10 file (sections 4.1 and 6), whose
    codec is absent from the source: after the 128-byte preamble and the
    magic, tag 0002,0000 in little-endian, the explicit VR code "UL", a
    2-byte length of 4 and a 4-byte little-endian value. *)
Definition file_meta_group_length (B : list byte) : option Z :=
  let e := drop 132 B in
  if bool_decide (take 8 e = [x02; x00; x00; x00; x55; x4c; x04; x00]
                  /\ 4 <= length (drop 8 e))%nat
  then Some (le_value (take 4 (drop 8 e)))
  else None.

(** The group length a reader of the file named by [filename] finds. *)
Definition output_group_length (w : World) (filename : ptr) : option Z :=
  file_named w filename ≫= file_meta_group_length.

(** ** Concrete callers *)

Module Caller.

(** A C string in an array of exactly its size. *)
Definition c_string (s : string) : object :=
  CharBuf (list_byte_of_string s ++ [x00]).

(** Six uninitialised 64-byte arrays (no NUL in them), three [int]
    cells, a pointer cell and a fourth [int] cell, at blocks 1 to 11. *)
Definition fresh_outputs : list (block * object) :=
  [(1%positive, CharBuf (replicate 64 xcc));
   (2%positive, CharBuf (replicate 64 xcc));
   (3%positive, CharBuf (replicate 64 xcc));
   (4%positive, CharBuf (replicate 64 xcc));
   (5%positive, CharBuf (replicate 64 xcc));
   (6%positive, CharBuf (replicate 64 xcc));
   (7%positive, IntCell (-1));
   (8%positive, IntCell (-1));
   (9%positive, IntCell (-1));
   (10%positive, PtrCell (Ptr 1));
   (11%positive, IntCell (-1))].

(** A caller about to read the file [name], with the name at block 12. *)
Definition reader_world (fs : list (string * list byte)) (name : string) : World :=
  {| files := list_to_map fs;
     mem := list_to_map ((12%positive, c_string name) :: fresh_outputs) |}.

(** The file is 132 zero bytes. *)
Definition w_zeros : World :=
  reader_world [("zeros.dcm"%string, replicate 132 x00)] "zeros.dcm".

(** The file is 10 bytes long. *)
Definition w_short : World :=
  reader_world [("short.dcm"%string, replicate 10 x00)] "short.dcm".

(** No file of that name exists. *)
Definition w_missing : World :=
  reader_world [] "missing.dcm".

(** A 65-character string of digits and dots. *)
Definition uid65 : string :=
  "1.2.840.10008.1.2.3.4.5.6.7.8.9.10.11.12.13.14.15.16.17.18.19.111".

(** A caller about to write "out.dcm", which does not exist, with the
    three UIDs of the UID validation property in the UID arguments and a
    pixel array of [n] bytes at block 7. *)
Definition writer_world (n : nat) : World :=
  {| files := ∅;
     mem := list_to_map
       [(12%positive, c_string "out.dcm");
        (1%positive, c_string "Test Patient");
        (2%positive, c_string "TEST001");
        (3%positive, c_string "1.2..3");
        (4%positive, c_string uid65);
        (5%positive, c_string "1.2.840.10008.1.1");
        (6%positive, c_string "CT");
        (7%positive, CharBuf (replicate n x00))] |}.

(** The reader called by such a caller, and the state it leaves. *)
Definition run_read (w : World) : option (Z * World) :=
  read_dicom_file_simple (Ptr 12)
    (Ptr 1) (Ptr 2) (Ptr 3) (Ptr 4) (Ptr 5) (Ptr 6)
    (Ptr 7) (Ptr 8) (Ptr 9) (Ptr 10) (Ptr 11) w.

Definition after_read (w : World) : World :=
  match run_read w with
  | Some (_, w') => w'
  | None => w
  end.

(** The writer called on [writer_world n], with the malformed UID as
    study UID, the 65-character one as series UID and the well-formed
    one as instance UID, for a 512 x 512 image of 16 bits and the [n]
    bytes of block 7 as pixel data. *)
Definition run_write (n : nat) : option (Z * World) :=
  write_dicom_file_simple (Ptr 12)
    (Ptr 1) (Ptr 2) (Ptr 3) (Ptr 4) (Ptr 5) (Ptr 6)
    512 512 16 (Ptr 7) (Z.of_nat n) (writer_world n).

(** A Part-10 header: a zero preamble, the magic, and a group-length
    element of value 178. *)
Definition header_178 : list byte :=
  replicate 128 x00 ++ list_byte_of_string "DICM" ++
  [x02; x00; x00; x00; x55; x4c; x04; x00; xb2; x00; x00; x00].

(** The outputs of [run_read], as the caller reads them back. *)
Definition outputs : list ptr :=
  output_list (Ptr 1) (Ptr 2) (Ptr 3) (Ptr 4) (Ptr 5) (Ptr 6)
    (Ptr 7) (Ptr 8) (Ptr 9) (Ptr 10) (Ptr 11).

Definition valid (w : World) : Prop :=
  valid_outputs w (Ptr 1) (Ptr 2) (Ptr 3) (Ptr 4) (Ptr 5) (Ptr 6)
    (Ptr 7) (Ptr 8) (Ptr 9) (Ptr 10) (Ptr 11).

Definition load (w : World) : option ImageRecord :=
  load_record (Ptr 1) (Ptr 2) (Ptr 3) (Ptr 4) (Ptr 5) (Ptr 6)
    (Ptr 7) (Ptr 8) (Ptr 9) (Ptr 10) (Ptr 11) w.

End Caller.

(** ** Further notions for the outputs of the reader *)

(** The same store next to other files. *)
Definition with_files (fs : gmap string (list byte)) (w : World) : World :=
  {| files := fs; mem := mem w |}.

(** The result of a call, moved next to other files. *)
Definition result_with_files {A} (fs : gmap string (list byte))
    (res : option (A * World)) : option (A * World) :=
  match res with
  | Some (a, w') => Some (a, with_files fs w')
  | None => None
  end.

(** A statement that behaves the same next to any files. *)
Definition oblivious {A} (m : M A) : Prop :=
  forall fs w, m (with_files fs w) = result_with_files fs (m w).

(** The outputs that receive a string, and those that receive an [int]. *)
Definition string_outputs
    (patient_name patient_id study_uid series_uid instance_uid
     modality : ptr) : list ptr :=
  [patient_name; patient_id; study_uid; series_uid; instance_uid; modality].

Definition int_outputs
    (width height bits_per_pixel pixel_data_length : ptr) : list ptr :=
  [width; height; bits_per_pixel; pixel_data_length].

(** A caller that passes the same objects for several outputs: one array
    for both patient fields, one for the three UIDs, one [int] cell for
    the three dimensions and the length. *)
Module Aliased.

Definition run_read (w : World) : option (Z * World) :=
  read_dicom_file_simple (Ptr 12)
    (Ptr 1) (Ptr 1) (Ptr 3) (Ptr 3) (Ptr 3) (Ptr 6)
    (Ptr 7) (Ptr 7) (Ptr 7) (Ptr 10) (Ptr 7) w.

Definition after_read (w : World) : World :=
  match run_read w with
  | Some (_, w') => w'
  | None => w
  end.

End Aliased.

(** A caller that passes one array for both the study UID and the
    modality; the other outputs are as in [Caller]. *)
Module SharedModality.

Definition run_read (w : World) : option (Z * World) :=
  read_dicom_file_simple (Ptr 12)
    (Ptr 1) (Ptr 2) (Ptr 6) (Ptr 4) (Ptr 5) (Ptr 6)
    (Ptr 7) (Ptr 8) (Ptr 9) (Ptr 10) (Ptr 11) w.

Definition after_read (w : World) : World :=
  match run_read w with
  | Some (_, w') => w'
  | None => w
  end.

Definition load (w : World) : option ImageRecord :=
  load_record (Ptr 1) (Ptr 2) (Ptr 6) (Ptr 4) (Ptr 5) (Ptr 6)
    (Ptr 7) (Ptr 8) (Ptr 9) (Ptr 10) (Ptr 11) w.

End SharedModality.

(** ** A Part-10 file to read and to write back *)

(** Modelled from the spec: [n] bytes of the unsigned value [v] in
    little-endian order, as the file-meta group encodes tags, lengths
    and numbers (section 4.1); the source encodes nothing. *)
Fixpoint le_bytes (n : nat) (v : Z) : list byte :=
  match n with
  | O => []
  | S n' =>
      match Byte.of_N (Z.to_N (v mod 256)) with
      | Some b => b :: le_bytes n' (v / 256)
      | None => x00 :: le_bytes n' (v / 256)
      end
  end.

(** Modelled from the spec: a string value, padded with a space to even
    length (section 3). *)
Definition padded (s : string) : list byte :=
  let bs := list_byte_of_string s in
  if Nat.even (length bs) then bs else bs ++ [x20].

(** Modelled from the spec: an element of a short value representation
    under explicit VR little endian (section 4.2): the tag, the
    two-character VR code, a 2-byte length and the value. *)
Definition short_element (group element : Z) (vr : string)
    (value : list byte) : list byte :=
  le_bytes 2 group ++ le_bytes 2 element ++ list_byte_of_string vr ++
  le_bytes 2 (Z.of_nat (length value)) ++ value.

(** Modelled from the spec: the byte size of a group of serialized
    elements, which the group-length element is to hold (section 4.1). *)
Definition group_size (elements : list (list byte)) : Z :=
  Z.of_nat (length (concat elements)).

(** Modelled from the spec: a Part-10 file that ends with its file-meta
    group (section 6): a zero preamble, the magic, the group-length
    element (0002,0000) holding [group_length], and the other elements
    of the group. *)
Definition part10_file (group_length : Z) (elements : list (list byte))
  : list byte :=
  replicate 128 x00 ++ list_byte_of_string "DICM" ++
  short_element 2 0 "UL" (le_bytes 4 group_length) ++ concat elements.

(** The file-meta elements of a CT image in explicit VR little endian:
    media storage class and instance, transfer syntax, implementation
    class and version, source application and private creator. *)
Definition meta_elements : list (list byte) :=
  [short_element 2 2 "UI" (padded "1.2.840.10008.5.1.4.1.1.2");
   short_element 2 3 "UI" (padded "1.2.3.4.5.1.1");
   short_element 2 16 "UI" (padded "1.2.840.10008.1.2.1");
   short_element 2 18 "UI" (padded "1.2.826.0.1.3680043.8.498.1");
   short_element 2 19 "SH" (padded "CRGODICOM_1.0");
   short_element 2 22 "AE" (padded "CRGODICOM");
   short_element 2 256 "UI" (padded "1.2.3.4.5")].

(** A caller about to read "scan.dcm", which holds [B], and to write
    the record back, over "scan.dcm" (name at block 12) or to "copy.dcm"
    (name at block 13), which does not exist. *)
Module Copier.

Definition copy_world (B : list byte) : World :=
  {| files := {[ "scan.dcm"%string := B ]};
     mem := list_to_map ((12%positive, Caller.c_string "scan.dcm")
                         :: (13%positive, Caller.c_string "copy.dcm")
                         :: Caller.fresh_outputs) |}.

(** The file holds the true size of its file-meta group. *)
Definition fresh_file : list byte :=
  part10_file (group_size meta_elements) meta_elements.

(** The file holds a stale group length, 200. *)
Definition stale_file : list byte :=
  part10_file 200 meta_elements.

(** The writer called with the outputs of the reader as inputs and the
    values the reader stored. *)
Definition write_back (name : ptr) (w : World) : option (Z * World) :=
  write_dicom_file_simple name
    (Ptr 1) (Ptr 2) (Ptr 3) (Ptr 4) (Ptr 5) (Ptr 6)
    512 512 16 NULL 0 w.

End Copier.

(** A caller whose patient-name array has 12 bytes, one fewer than the
    reader writes; the other outputs are as in [Caller]. *)
Definition w_tight : World :=
  {| files := ∅;
     mem := <[1%positive := CharBuf (replicate 12 xcc)]>
              (list_to_map Caller.fresh_outputs) |}.

(** * Properties *)

(** ** C strings *)

Lemma eqb_nul_false (b : byte) : b <> x00 -> Byte.eqb b x00 = false.
Proof.
  intros Hb. destruct (Byte.eqb b x00) eqn:E; [|reflexivity].
  apply Byte.byte_dec_bl in E. contradiction.
Qed.

(** The string of an array that starts with NUL-free bytes and a NUL. *)
Lemma c_str_app (s t : list byte) :
  x00 ∉ s -> c_str (s ++ x00 :: t) = Some s.
Proof.
  induction s as [|b s IH]; intros Hs; simpl.
  - reflexivity.
  - apply not_elem_of_cons in Hs as [Hb Hs].
    rewrite eqb_nul_false by congruence.
    rewrite IH by assumption. reflexivity.
Qed.

(** ** The statements *)

Lemma bind_inv {A B} (m : M A) (k : A -> M B) w b w' :
  bind m k w = Some (b, w') ->
  exists a w1, m w = Some (a, w1) /\ k a w1 = Some (b, w').
Proof.
  unfold bind. destruct (m w) as [[a w1]|]; [|discriminate].
  intros H. exists a, w1. split; [reflexivity | exact H].
Qed.

Lemma bind_run {A B} (m : M A) (k : A -> M B) w a w1 :
  m w = Some (a, w1) -> bind m k w = k a w1.
Proof. unfold bind. intros ->. reflexivity. Qed.

Lemma writes_nil w : writes [] w w.
Proof. repeat split. Qed.

Lemma writes_cons p ps w w1 w' :
  writes [p] w w1 -> writes ps w1 w' -> writes (p :: ps) w w'.
Proof.
  intros (F1 & S1 & O1) (F2 & S2 & O2). repeat split.
  - congruence.
  - intros q. rewrite S2. apply S1.
  - intros q Hq. apply not_elem_of_cons in Hq as [Hp Hq].
    rewrite O2 by assumption. apply O1.
    apply not_elem_of_cons. split; [assumption | apply not_elem_of_nil].
Qed.

(** A store of an object of the same shape at [b]. *)
Lemma set_mem_writes w b o o' :
  mem w !! b = Some o -> shape_of o' = shape_of o ->
  writes [Ptr b] w (set_mem w (<[b := o']> (mem w))).
Proof.
  intros Hb Hs. repeat split.
  - intros [|c]; [reflexivity|]. unfold shape_at; simpl.
    destruct (decide (b = c)) as [->|Hne].
    + rewrite lookup_insert_eq, Hb. simpl. congruence.
    + rewrite lookup_insert_ne by assumption. reflexivity.
  - intros [|c] Hq; [reflexivity|]. simpl.
    apply lookup_insert_ne. intros ->. apply Hq. left.
Qed.

Lemma strcpy_inv p s w u w' :
  strcpy p s w = Some (u, w') ->
  can_hold w p s /\ writes [p] w w' /\
  (x00 ∉ list_byte_of_string s -> string_at w' p = Some s).
Proof.
  unfold strcpy. destruct p as [|b]; [discriminate|].
  destruct (mem w !! b) as [[buf| |]|] eqn:Hb; try discriminate.
  simpl. case_decide as Hlen; [|discriminate].
  intros [= _ <-]. split; [|split].
  - exists (length buf). unfold shape_at; simpl. rewrite Hb. auto.
  - apply (set_mem_writes _ _ (CharBuf buf)); [assumption|].
    simpl. f_equal. rewrite length_app; simpl. rewrite length_drop. lia.
  - intros Hs. unfold string_at; simpl. rewrite lookup_insert_eq.
    rewrite c_str_app by assumption. simpl.
    f_equal. apply string_of_list_byte_of_string.
Qed.

Lemma strcpy_defined p s w :
  can_hold w p s -> exists w', strcpy p s w = Some (tt, w').
Proof.
  intros (n & Hn & Hlen). unfold strcpy, shape_at in *.
  destruct p as [|b]; [discriminate|]. simpl in Hn.
  destruct (mem w !! b) as [[buf| |]|]; try discriminate.
  simpl in Hn. injection Hn as <-. simpl.
  rewrite decide_True by assumption. eauto.
Qed.

Lemma store_int_inv p v w u w' :
  store_int p v w = Some (u, w') ->
  shape_at w p = Some SInt /\ writes [p] w w' /\ int_at w' p = Some v.
Proof.
  unfold store_int. destruct p as [|b]; [discriminate|].
  destruct (mem w !! b) as [[| v0 |]|] eqn:Hb; try discriminate.
  intros [= _ <-]. split; [|split].
  - unfold shape_at; simpl. rewrite Hb. reflexivity.
  - apply (set_mem_writes _ _ (IntCell v0)); [assumption | reflexivity].
  - unfold int_at; simpl. rewrite lookup_insert_eq. reflexivity.
Qed.

Lemma store_int_defined p v w :
  shape_at w p = Some SInt -> exists w', store_int p v w = Some (tt, w').
Proof.
  unfold store_int, shape_at. destruct p as [|b]; [discriminate|]. simpl.
  destruct (mem w !! b) as [[| |]|]; try discriminate. eauto.
Qed.

Lemma store_ptr_inv p q w u w' :
  store_ptr p q w = Some (u, w') ->
  shape_at w p = Some SPtr /\ writes [p] w w' /\ ptr_at w' p = Some q.
Proof.
  unfold store_ptr. destruct p as [|b]; [discriminate|].
  destruct (mem w !! b) as [[| | q0]|] eqn:Hb; try discriminate.
  intros [= _ <-]. split; [|split].
  - unfold shape_at; simpl. rewrite Hb. reflexivity.
  - apply (set_mem_writes _ _ (PtrCell q0)); [assumption | reflexivity].
  - unfold ptr_at; simpl. rewrite lookup_insert_eq. reflexivity.
Qed.

Lemma store_ptr_defined p q w :
  shape_at w p = Some SPtr -> exists w', store_ptr p q w = Some (tt, w').
Proof.
  unfold store_ptr, shape_at. destruct p as [|b]; [discriminate|]. simpl.
  destruct (mem w !! b) as [[| |]|]; try discriminate. eauto.
Qed.

Lemma writes_string_at ps w w' q :
  writes ps w w' -> q ∉ ps -> string_at w' q = string_at w q.
Proof. intros (_ & _ & O) Hq. unfold string_at. rewrite O by assumption. reflexivity. Qed.

Lemma writes_int_at ps w w' q :
  writes ps w w' -> q ∉ ps -> int_at w' q = int_at w q.
Proof. intros (_ & _ & O) Hq. unfold int_at. rewrite O by assumption. reflexivity. Qed.

Lemma writes_ptr_at ps w w' q :
  writes ps w w' -> q ∉ ps -> ptr_at w' q = ptr_at w q.
Proof. intros (_ & _ & O) Hq. unfold ptr_at. rewrite O by assumption. reflexivity. Qed.

(** Move the facts about the shapes before the stores [W] to after them,
    and back. *)
Ltac forward W :=
  match type of W with
  | writes _ ?wa _ =>
      repeat match goal with
             | V : context [shape_at wa _] |- _ =>
                 rewrite <- (proj1 (proj2 W)) in V
             end
  end.

Ltac backward W :=
  match type of W with
  | writes _ _ ?wb =>
      repeat match goal with
             | V : context [shape_at wb _] |- _ =>
                 rewrite (proj1 (proj2 W)) in V
             end
  end.

(** Decide a closed proposition by evaluation. *)
Ltac by_decide := apply (bool_decide_unpack _); vm_compute; exact I.

(** ** The statements, object by object *)

Lemma length_list_byte_of_string (s : string) :
  length (list_byte_of_string s) = String.length s.
Proof.
  unfold list_byte_of_string. rewrite length_map.
  induction s as [|c s IH]; simpl; [reflexivity | rewrite IH; reflexivity].
Qed.

(** An object is an array, an [int] cell or a pointer cell, and is read
    back as one kind only. *)
Lemma string_at_shape w q s :
  string_at w q = Some s -> exists n, shape_at w q = Some (SBuf n).
Proof.
  unfold string_at, shape_at. destruct (obj_at w q) as [[buf| |]|]; try discriminate.
  intros _. exists (length buf). reflexivity.
Qed.

Lemma int_at_shape w q v :
  int_at w q = Some v -> shape_at w q = Some SInt.
Proof.
  unfold int_at, shape_at. destruct (obj_at w q) as [[| |]|]; try discriminate.
  reflexivity.
Qed.

Lemma ptr_at_shape w q v :
  ptr_at w q = Some v -> shape_at w q = Some SPtr.
Proof.
  unfold ptr_at, shape_at. destruct (obj_at w q) as [[| |]|]; try discriminate.
  reflexivity.
Qed.

Lemma shape_buf_views w q n :
  shape_at w q = Some (SBuf n) -> int_at w q = None /\ ptr_at w q = None.
Proof.
  unfold shape_at, int_at, ptr_at.
  destruct (obj_at w q) as [[| |]|]; try discriminate. split; reflexivity.
Qed.

Lemma shape_int_views w q :
  shape_at w q = Some SInt -> string_at w q = None /\ ptr_at w q = None.
Proof.
  unfold shape_at, string_at, ptr_at.
  destruct (obj_at w q) as [[| |]|]; try discriminate. split; reflexivity.
Qed.

Lemma shape_ptr_views w q :
  shape_at w q = Some SPtr -> string_at w q = None /\ int_at w q = None.
Proof.
  unfold shape_at, string_at, int_at.
  destruct (obj_at w q) as [[| |]|]; try discriminate. split; reflexivity.
Qed.

Lemma not_elem_singleton (p q : ptr) : q <> p -> q ∉ [p].
Proof.
  intros Hne. apply not_elem_of_cons. split; [exact Hne | apply not_elem_of_nil].
Qed.

(** What each statement does to the strings, the [int]s and the pointers
    of the store, whichever pointer reads them. *)
Lemma strcpy_string_at p s w u w' :
  strcpy p s w = Some (u, w') -> x00 ∉ list_byte_of_string s ->
  forall q, string_at w' q = if decide (q = p) then Some s else string_at w q.
Proof.
  intros E Hs q. apply strcpy_inv in E as (_ & W & C).
  case_decide as Hq; [subst q; apply C; exact Hs|].
  apply (writes_string_at _ _ _ _ W). apply not_elem_singleton. exact Hq.
Qed.

Lemma strcpy_int_at p s w u w' :
  strcpy p s w = Some (u, w') -> forall q, int_at w' q = int_at w q.
Proof.
  intros E q. apply strcpy_inv in E as ((n & Hn & _) & W & _).
  destruct (decide (q = p)) as [->|Hq].
  - pose proof (proj1 (proj2 W) p) as S. rewrite Hn in S.
    apply shape_buf_views in Hn as [-> _]. apply shape_buf_views in S as [-> _].
    reflexivity.
  - apply (writes_int_at _ _ _ _ W). apply not_elem_singleton. exact Hq.
Qed.

Lemma strcpy_ptr_at p s w u w' :
  strcpy p s w = Some (u, w') -> forall q, ptr_at w' q = ptr_at w q.
Proof.
  intros E q. apply strcpy_inv in E as ((n & Hn & _) & W & _).
  destruct (decide (q = p)) as [->|Hq].
  - pose proof (proj1 (proj2 W) p) as S. rewrite Hn in S.
    apply shape_buf_views in Hn as [_ ->]. apply shape_buf_views in S as [_ ->].
    reflexivity.
  - apply (writes_ptr_at _ _ _ _ W). apply not_elem_singleton. exact Hq.
Qed.

Lemma store_int_string_at p v w u w' :
  store_int p v w = Some (u, w') -> forall q, string_at w' q = string_at w q.
Proof.
  intros E q. apply store_int_inv in E as (Hn & W & _).
  destruct (decide (q = p)) as [->|Hq].
  - pose proof (proj1 (proj2 W) p) as S. rewrite Hn in S.
    apply shape_int_views in Hn as [-> _]. apply shape_int_views in S as [-> _].
    reflexivity.
  - apply (writes_string_at _ _ _ _ W). apply not_elem_singleton. exact Hq.
Qed.

Lemma store_int_int_at p v w u w' :
  store_int p v w = Some (u, w') ->
  forall q, int_at w' q = if decide (q = p) then Some v else int_at w q.
Proof.
  intros E q. apply store_int_inv in E as (_ & W & C).
  case_decide as Hq; [subst q; exact C|].
  apply (writes_int_at _ _ _ _ W). apply not_elem_singleton. exact Hq.
Qed.

Lemma store_int_ptr_at p v w u w' :
  store_int p v w = Some (u, w') -> forall q, ptr_at w' q = ptr_at w q.
Proof.
  intros E q. apply store_int_inv in E as (Hn & W & _).
  destruct (decide (q = p)) as [->|Hq].
  - pose proof (proj1 (proj2 W) p) as S. rewrite Hn in S.
    apply shape_int_views in Hn as [_ ->]. apply shape_int_views in S as [_ ->].
    reflexivity.
  - apply (writes_ptr_at _ _ _ _ W). apply not_elem_singleton. exact Hq.
Qed.

Lemma store_ptr_string_at p v w u w' :
  store_ptr p v w = Some (u, w') -> forall q, string_at w' q = string_at w q.
Proof.
  intros E q. apply store_ptr_inv in E as (Hn & W & _).
  destruct (decide (q = p)) as [->|Hq].
  - pose proof (proj1 (proj2 W) p) as S. rewrite Hn in S.
    apply shape_ptr_views in Hn as [-> _]. apply shape_ptr_views in S as [-> _].
    reflexivity.
  - apply (writes_string_at _ _ _ _ W). apply not_elem_singleton. exact Hq.
Qed.

Lemma store_ptr_int_at p v w u w' :
  store_ptr p v w = Some (u, w') -> forall q, int_at w' q = int_at w q.
Proof.
  intros E q. apply store_ptr_inv in E as (Hn & W & _).
  destruct (decide (q = p)) as [->|Hq].
  - pose proof (proj1 (proj2 W) p) as S. rewrite Hn in S.
    apply shape_ptr_views in Hn as [_ ->]. apply shape_ptr_views in S as [_ ->].
    reflexivity.
  - apply (writes_int_at _ _ _ _ W). apply not_elem_singleton. exact Hq.
Qed.

Lemma store_ptr_ptr_at p v w u w' :
  store_ptr p v w = Some (u, w') ->
  forall q, ptr_at w' q = if decide (q = p) then Some v else ptr_at w q.
Proof.
  intros E q. apply store_ptr_inv in E as (_ & W & C).
  case_decide as Hq; [subst q; exact C|].
  apply (writes_ptr_at _ _ _ _ W). apply not_elem_singleton. exact Hq.
Qed.

(** A statement that has run once runs again, without changing anything,
    in every state that has the object it left at its pointer. *)
Lemma strcpy_again p s w u w1 w2 :
  strcpy p s w = Some (u, w1) -> obj_at w2 p = obj_at w1 p ->
  strcpy p s w2 = Some (tt, w2).
Proof.
  unfold strcpy. destruct p as [|b]; [discriminate|].
  destruct (mem w !! b) as [[buf| |]|]; try discriminate.
  simpl. case_decide as Hlen; [|discriminate].
  intros [= _ <-]. simpl. rewrite lookup_insert_eq. intros H2. rewrite H2.
  set (bs := list_byte_of_string s) in *.
  rewrite decide_True
    by (rewrite length_app; simpl; rewrite length_drop; lia).
  replace (drop (length bs + 1) (bs ++ x00 :: drop (length bs + 1) buf))
    with (drop (length bs + 1) buf).
  - rewrite insert_id by exact H2. destruct w2; reflexivity.
  - rewrite (cons_middle x00), app_assoc.
    rewrite drop_app_length' by (rewrite length_app; simpl; lia).
    reflexivity.
Qed.

Lemma store_int_again p v w u w1 w2 :
  store_int p v w = Some (u, w1) -> obj_at w2 p = obj_at w1 p ->
  store_int p v w2 = Some (tt, w2).
Proof.
  unfold store_int. destruct p as [|b]; [discriminate|].
  destruct (mem w !! b) as [[| |]|]; try discriminate.
  intros [= _ <-]. simpl. rewrite lookup_insert_eq. intros H2. rewrite H2.
  rewrite insert_id by exact H2. destruct w2; reflexivity.
Qed.

Lemma store_ptr_again p q w u w1 w2 :
  store_ptr p q w = Some (u, w1) -> obj_at w2 p = obj_at w1 p ->
  store_ptr p q w2 = Some (tt, w2).
Proof.
  unfold store_ptr. destruct p as [|b]; [discriminate|].
  destruct (mem w !! b) as [[| |]|]; try discriminate.
  intros [= _ <-]. simpl. rewrite lookup_insert_eq. intros H2. rewrite H2.
  rewrite insert_id by exact H2. destruct w2; reflexivity.
Qed.

(** [strcpy] keeps the size of its array and the bytes after the NUL it
    writes. *)
Lemma strcpy_tail p s w u w' :
  strcpy p s w = Some (u, w') -> x00 ∉ list_byte_of_string s ->
  forall buf buf' s',
    obj_at w p = Some (CharBuf buf) -> obj_at w' p = Some (CharBuf buf') ->
    string_at w' p = Some s' ->
    length buf' = length buf /\
    forall i, (String.length s' < i)%nat -> buf' !! i = buf !! i.
Proof.
  intros E Hs buf buf' s' Hb Hb' Hs'.
  pose proof (strcpy_inv _ _ _ _ _ E) as (_ & _ & C).
  rewrite C in Hs' by exact Hs. injection Hs' as <-.
  unfold strcpy in E. destruct p as [|b]; [discriminate|].
  simpl in Hb. rewrite Hb in E. simpl in E.
  case_decide as Hlen; [|discriminate]. injection E as _ <-.
  simpl in Hb'. rewrite lookup_insert_eq in Hb'. injection Hb' as <-.
  rewrite <- (length_list_byte_of_string s).
  set (bs := list_byte_of_string s) in *. split.
  - rewrite length_app; simpl. rewrite length_drop. lia.
  - intros i Hi. rewrite lookup_app_r by lia.
    rewrite lookup_cons_ne_0 by lia. rewrite lookup_drop.
    f_equal. lia.
Qed.

(** No statement of the reader looks at the files. *)
Lemma oblivious_ret {A} (a : A) : oblivious (ret a).
Proof. intros fs w. reflexivity. Qed.

Lemma oblivious_bind {A B} (m : M A) (k : A -> M B) :
  oblivious m -> (forall a, oblivious (k a)) -> oblivious (bind m k).
Proof.
  intros Hm Hk fs w. unfold bind. rewrite Hm.
  destruct (m w) as [[a w1]|]; simpl; [apply Hk | reflexivity].
Qed.

Lemma oblivious_strcpy p s : oblivious (strcpy p s).
Proof.
  intros fs w. unfold strcpy. destruct p as [|b]; [reflexivity|]. simpl.
  destruct (mem w !! b) as [[buf| |]|]; try reflexivity.
  simpl. case_decide; reflexivity.
Qed.

Lemma oblivious_store_int p v : oblivious (store_int p v).
Proof.
  intros fs w. unfold store_int. destruct p as [|b]; [reflexivity|]. simpl.
  destruct (mem w !! b) as [[| |]|]; reflexivity.
Qed.

Lemma oblivious_store_ptr p q : oblivious (store_ptr p q).
Proof.
  intros fs w. unfold store_ptr. destruct p as [|b]; [reflexivity|]. simpl.
  destruct (mem w !! b) as [[| |]|]; reflexivity.
Qed.

(** ** Tactics for the eleven stores *)

(** The eleven stores of a defined call, with the states between them. *)
Ltac invert_read H :=
  unfold read_dicom_file_simple in H;
  apply bind_inv in H as ([] & w1 & E1 & H);
  apply bind_inv in H as ([] & w2 & E2 & H);
  apply bind_inv in H as ([] & w3 & E3 & H);
  apply bind_inv in H as ([] & w4 & E4 & H);
  apply bind_inv in H as ([] & w5 & E5 & H);
  apply bind_inv in H as ([] & w6 & E6 & H);
  apply bind_inv in H as ([] & w7 & E7 & H);
  apply bind_inv in H as ([] & w8 & E8 & H);
  apply bind_inv in H as ([] & w9 & E9 & H);
  apply bind_inv in H as ([] & w10 & E10 & H);
  apply bind_inv in H as ([] & w11 & E11 & H);
  unfold ret in H; injection H as <- <-;
  pose proof (proj1 (proj2 (strcpy_inv _ _ _ _ _ E1))) as W1;
  pose proof (proj1 (proj2 (strcpy_inv _ _ _ _ _ E2))) as W2;
  pose proof (proj1 (proj2 (strcpy_inv _ _ _ _ _ E3))) as W3;
  pose proof (proj1 (proj2 (strcpy_inv _ _ _ _ _ E4))) as W4;
  pose proof (proj1 (proj2 (strcpy_inv _ _ _ _ _ E5))) as W5;
  pose proof (proj1 (proj2 (strcpy_inv _ _ _ _ _ E6))) as W6;
  pose proof (proj1 (proj2 (store_int_inv _ _ _ _ _ E7))) as W7;
  pose proof (proj1 (proj2 (store_int_inv _ _ _ _ _ E8))) as W8;
  pose proof (proj1 (proj2 (store_int_inv _ _ _ _ _ E9))) as W9;
  pose proof (proj1 (proj2 (store_ptr_inv _ _ _ _ _ E10))) as W10;
  pose proof (proj1 (proj2 (store_int_inv _ _ _ _ _ E11))) as W11.

(** The pairwise differences of the elements of a list without
    duplicates. *)
Ltac distinct ND :=
  rewrite !NoDup_cons, !not_elem_of_cons in ND; destruct_and!.

(** Follow an object back through the stores to other pointers. *)
Ltac other := apply not_elem_singleton; congruence.

Ltac back :=
  repeat match goal with
         | W : writes [_] _ _ |- _ => rewrite (proj2 (proj2 W)) by other
         end.

Ltac back_in H :=
  repeat match goal with
         | W : writes [_] _ _ |- _ => rewrite (proj2 (proj2 W)) in H by other
         end.


(** ** The reader *)

Section Reader.

Variables patient_name patient_id study_uid series_uid instance_uid : ptr.
Variables modality width height bits_per_pixel : ptr.
Variables pixel_data pixel_data_length : ptr.

Local Abbreviation outs :=
  (output_list patient_name patient_id study_uid series_uid instance_uid
     modality width height bits_per_pixel pixel_data pixel_data_length).
Local Abbreviation read filename :=
  (read_dicom_file_simple filename
     patient_name patient_id study_uid series_uid instance_uid
     modality width height bits_per_pixel pixel_data pixel_data_length).
Local Abbreviation valid w :=
  (valid_outputs w patient_name patient_id study_uid series_uid instance_uid
     modality width height bits_per_pixel pixel_data pixel_data_length).
Local Abbreviation load w :=
  (load_record patient_name patient_id study_uid series_uid instance_uid
     modality width height bits_per_pixel pixel_data pixel_data_length w).

(** What a defined call has done. *)
Lemma read_inv filename r w w' :
  read filename w = Some (r, w') ->
  r = 0 /\ valid w /\ writes outs w w' /\
  (NoDup outs -> load w' = Some dummy_record).
Proof.
  unfold read_dicom_file_simple. intros H.
  apply bind_inv in H as ([] & w1 & E1 & H).
  apply bind_inv in H as ([] & w2 & E2 & H).
  apply bind_inv in H as ([] & w3 & E3 & H).
  apply bind_inv in H as ([] & w4 & E4 & H).
  apply bind_inv in H as ([] & w5 & E5 & H).
  apply bind_inv in H as ([] & w6 & E6 & H).
  apply bind_inv in H as ([] & w7 & E7 & H).
  apply bind_inv in H as ([] & w8 & E8 & H).
  apply bind_inv in H as ([] & w9 & E9 & H).
  apply bind_inv in H as ([] & w10 & E10 & H).
  apply bind_inv in H as ([] & w11 & E11 & H).
  unfold ret in H. injection H as <- <-.
  apply strcpy_inv in E1 as (V1 & W1 & C1).
  apply strcpy_inv in E2 as (V2 & W2 & C2).
  apply strcpy_inv in E3 as (V3 & W3 & C3).
  apply strcpy_inv in E4 as (V4 & W4 & C4).
  apply strcpy_inv in E5 as (V5 & W5 & C5).
  apply strcpy_inv in E6 as (V6 & W6 & C6).
  apply store_int_inv in E7 as (V7 & W7 & C7).
  apply store_int_inv in E8 as (V8 & W8 & C8).
  apply store_int_inv in E9 as (V9 & W9 & C9).
  apply store_ptr_inv in E10 as (V10 & W10 & C10).
  apply store_int_inv in E11 as (V11 & W11 & C11).
  pose proof (writes_nil w11) as T11.
  pose proof (writes_cons _ _ _ _ _ W11 T11) as T10.
  pose proof (writes_cons _ _ _ _ _ W10 T10) as T9.
  pose proof (writes_cons _ _ _ _ _ W9 T9) as T8.
  pose proof (writes_cons _ _ _ _ _ W8 T8) as T7.
  pose proof (writes_cons _ _ _ _ _ W7 T7) as T6.
  pose proof (writes_cons _ _ _ _ _ W6 T6) as T5.
  pose proof (writes_cons _ _ _ _ _ W5 T5) as T4.
  pose proof (writes_cons _ _ _ _ _ W4 T4) as T3.
  pose proof (writes_cons _ _ _ _ _ W3 T3) as T2.
  pose proof (writes_cons _ _ _ _ _ W2 T2) as T1.
  pose proof (writes_cons _ _ _ _ _ W1 T1) as T0.
  split; [reflexivity|]. split; [|split].
  - clear T0 T1 T2 T3 T4 T5 T6 T7 T8 T9 T10 T11.
    clear C1 C2 C3 C4 C5 C6 C7 C8 C9 C10 C11.
    unfold can_hold in *.
    backward W10. backward W9. backward W8. backward W7. backward W6.
    backward W5. backward W4. backward W3. backward W2. backward W1.
    repeat split; assumption.
  - exact T0.
  - intros ND. unfold output_list in ND.
    apply NoDup_cons in ND as [N1 ND]. apply NoDup_cons in ND as [N2 ND].
    apply NoDup_cons in ND as [N3 ND]. apply NoDup_cons in ND as [N4 ND].
    apply NoDup_cons in ND as [N5 ND]. apply NoDup_cons in ND as [N6 ND].
    apply NoDup_cons in ND as [N7 ND]. apply NoDup_cons in ND as [N8 ND].
    apply NoDup_cons in ND as [N9 ND]. apply NoDup_cons in ND as [N10 _].
    unfold load_record.
    rewrite (writes_string_at _ _ _ _ T1 N1), C1 by by_decide.
    rewrite (writes_string_at _ _ _ _ T2 N2), C2 by by_decide.
    rewrite (writes_string_at _ _ _ _ T3 N3), C3 by by_decide.
    rewrite (writes_string_at _ _ _ _ T4 N4), C4 by by_decide.
    rewrite (writes_string_at _ _ _ _ T5 N5), C5 by by_decide.
    rewrite (writes_string_at _ _ _ _ T6 N6), C6 by by_decide.
    rewrite (writes_int_at _ _ _ _ T7 N7), C7.
    rewrite (writes_int_at _ _ _ _ T8 N8), C8.
    rewrite (writes_int_at _ _ _ _ T9 N9), C9.
    rewrite (writes_ptr_at _ _ _ _ T10 N10), C10.
    rewrite C11. reflexivity.
Qed.

(** When a call is defined. *)
Lemma read_defined filename w :
  valid w -> exists w', read filename w = Some (0, w').
Proof.
  intros (V1 & V2 & V3 & V4 & V5 & V6 & V7 & V8 & V9 & V10 & V11).
  unfold read_dicom_file_simple, can_hold in *.
  destruct (strcpy_defined _ _ _ V1) as [w1 E]. rewrite (bind_run _ _ _ _ _ E).
  apply strcpy_inv in E as (_ & W & _). forward W. clear W.
  destruct (strcpy_defined _ _ _ V2) as [w2 E]. rewrite (bind_run _ _ _ _ _ E).
  apply strcpy_inv in E as (_ & W & _). forward W. clear W.
  destruct (strcpy_defined _ _ _ V3) as [w3 E]. rewrite (bind_run _ _ _ _ _ E).
  apply strcpy_inv in E as (_ & W & _). forward W. clear W.
  destruct (strcpy_defined _ _ _ V4) as [w4 E]. rewrite (bind_run _ _ _ _ _ E).
  apply strcpy_inv in E as (_ & W & _). forward W. clear W.
  destruct (strcpy_defined _ _ _ V5) as [w5 E]. rewrite (bind_run _ _ _ _ _ E).
  apply strcpy_inv in E as (_ & W & _). forward W. clear W.
  destruct (strcpy_defined _ _ _ V6) as [w6 E]. rewrite (bind_run _ _ _ _ _ E).
  apply strcpy_inv in E as (_ & W & _). forward W. clear W.
  destruct (store_int_defined _ 512 _ V7) as [w7 E]. rewrite (bind_run _ _ _ _ _ E).
  apply store_int_inv in E as (_ & W & _). forward W. clear W.
  destruct (store_int_defined _ 512 _ V8) as [w8 E]. rewrite (bind_run _ _ _ _ _ E).
  apply store_int_inv in E as (_ & W & _). forward W. clear W.
  destruct (store_int_defined _ 16 _ V9) as [w9 E]. rewrite (bind_run _ _ _ _ _ E).
  apply store_int_inv in E as (_ & W & _). forward W. clear W.
  destruct (store_ptr_defined _ NULL _ V10) as [w10 E]. rewrite (bind_run _ _ _ _ _ E).
  apply store_ptr_inv in E as (_ & W & _). forward W. clear W.
  destruct (store_int_defined _ 0 _ V11) as [w11 E]. rewrite (bind_run _ _ _ _ _ E).
  exists w11. reflexivity.
Qed.

(** In this store a call is defined exactly when its outputs are
    valid. *)
Lemma read_defined_iff filename w :
  is_Some (read filename w) <-> valid w.
Proof.
  split.
  - intros [[r w'] E]. apply read_inv in E as (_ & V & _). exact V.
  - intros V. destruct (read_defined filename w V) as [w' E].
    rewrite E. eauto.
Qed.

(** The strings, [int]s and pointers a defined call leaves, through any
    pointer of the store. *)
Lemma read_string_view filename r w w' :
  read filename w = Some (r, w') ->
  forall q,
    string_at w' q =
      if decide (q = modality) then Some "CT"%string
      else if decide (q = instance_uid) then Some "1.2.3.4.5.1.1"%string
      else if decide (q = series_uid) then Some "1.2.3.4.5.1"%string
      else if decide (q = study_uid) then Some "1.2.3.4.5"%string
      else if decide (q = patient_id) then Some "TEST001"%string
      else if decide (q = patient_name) then Some "Test Patient"%string
      else string_at w q.
Proof.
  intros E q. invert_read E.
  rewrite (store_int_string_at _ _ _ _ _ E11).
  rewrite (store_ptr_string_at _ _ _ _ _ E10).
  rewrite (store_int_string_at _ _ _ _ _ E9).
  rewrite (store_int_string_at _ _ _ _ _ E8).
  rewrite (store_int_string_at _ _ _ _ _ E7).
  rewrite (strcpy_string_at _ _ _ _ _ E6) by by_decide.
  rewrite (strcpy_string_at _ _ _ _ _ E5) by by_decide.
  rewrite (strcpy_string_at _ _ _ _ _ E4) by by_decide.
  rewrite (strcpy_string_at _ _ _ _ _ E3) by by_decide.
  rewrite (strcpy_string_at _ _ _ _ _ E2) by by_decide.
  rewrite (strcpy_string_at _ _ _ _ _ E1) by by_decide.
  reflexivity.
Qed.

Lemma read_int_view filename r w w' :
  read filename w = Some (r, w') ->
  forall q,
    int_at w' q =
      if decide (q = pixel_data_length) then Some 0
      else if decide (q = bits_per_pixel) then Some 16
      else if decide (q = height) then Some 512
      else if decide (q = width) then Some 512
      else int_at w q.
Proof.
  intros E q. invert_read E.
  rewrite (store_int_int_at _ _ _ _ _ E11).
  rewrite (store_ptr_int_at _ _ _ _ _ E10).
  rewrite (store_int_int_at _ _ _ _ _ E9).
  rewrite (store_int_int_at _ _ _ _ _ E8).
  rewrite (store_int_int_at _ _ _ _ _ E7).
  rewrite (strcpy_int_at _ _ _ _ _ E6), (strcpy_int_at _ _ _ _ _ E5).
  rewrite (strcpy_int_at _ _ _ _ _ E4), (strcpy_int_at _ _ _ _ _ E3).
  rewrite (strcpy_int_at _ _ _ _ _ E2), (strcpy_int_at _ _ _ _ _ E1).
  reflexivity.
Qed.

Lemma read_ptr_view filename r w w' :
  read filename w = Some (r, w') ->
  forall q,
    ptr_at w' q = if decide (q = pixel_data) then Some NULL else ptr_at w q.
Proof.
  intros E q. invert_read E.
  rewrite (store_int_ptr_at _ _ _ _ _ E11).
  rewrite (store_ptr_ptr_at _ _ _ _ _ E10).
  rewrite (store_int_ptr_at _ _ _ _ _ E9).
  rewrite (store_int_ptr_at _ _ _ _ _ E8).
  rewrite (store_int_ptr_at _ _ _ _ _ E7).
  rewrite (strcpy_ptr_at _ _ _ _ _ E6), (strcpy_ptr_at _ _ _ _ _ E5).
  rewrite (strcpy_ptr_at _ _ _ _ _ E4), (strcpy_ptr_at _ _ _ _ _ E3).
  rewrite (strcpy_ptr_at _ _ _ _ _ E2), (strcpy_ptr_at _ _ _ _ _ E1).
  reflexivity.
Qed.

(** The record a defined call leaves is a function of the output
    pointers alone: every defined call into the same outputs, from any
    state and for any file name, leaves the same record, and it leaves
    one. *)
Lemma read_record_fixed filename filename' r r' w w' wa wa' :
  read filename w = Some (r, w') -> read filename' wa = Some (r', wa') ->
  load w' = load wa'.
Proof.
  intros E Ea.
  pose proof (read_string_view _ _ _ _ E) as S.
  pose proof (read_string_view _ _ _ _ Ea) as Sa.
  pose proof (read_int_view _ _ _ _ E) as I.
  pose proof (read_int_view _ _ _ _ Ea) as Ia.
  pose proof (read_ptr_view _ _ _ _ E) as P.
  pose proof (read_ptr_view _ _ _ _ Ea) as Pa.
  assert (Hs : forall q, q ∈ [patient_name; patient_id; study_uid;
                              series_uid; instance_uid; modality] ->
                         string_at w' q = string_at wa' q).
  { intros q Hq. rewrite S, Sa. rewrite !elem_of_cons in Hq.
    repeat case_decide; try reflexivity.
    destruct Hq as [?|[?|[?|[?|[?|[?|Hq]]]]]]; try contradiction.
    apply elem_of_nil in Hq. contradiction. }
  assert (Hi : forall q, q ∈ [width; height; bits_per_pixel;
                              pixel_data_length] ->
                         int_at w' q = int_at wa' q).
  { intros q Hq. rewrite I, Ia. rewrite !elem_of_cons in Hq.
    repeat case_decide; try reflexivity.
    destruct Hq as [?|[?|[?|[?|Hq]]]]; try contradiction.
    apply elem_of_nil in Hq. contradiction. }
  assert (Hp : ptr_at w' pixel_data = ptr_at wa' pixel_data).
  { rewrite P, Pa. rewrite !decide_True by reflexivity. reflexivity. }
  unfold load_record.
  rewrite (Hs patient_name) by (rewrite !elem_of_cons; tauto).
  rewrite (Hs patient_id) by (rewrite !elem_of_cons; tauto).
  rewrite (Hs study_uid) by (rewrite !elem_of_cons; tauto).
  rewrite (Hs series_uid) by (rewrite !elem_of_cons; tauto).
  rewrite (Hs instance_uid) by (rewrite !elem_of_cons; tauto).
  rewrite (Hs modality) by (rewrite !elem_of_cons; tauto).
  rewrite (Hi width) by (rewrite !elem_of_cons; tauto).
  rewrite (Hi height) by (rewrite !elem_of_cons; tauto).
  rewrite (Hi bits_per_pixel) by (rewrite !elem_of_cons; tauto).
  rewrite (Hi pixel_data_length) by (rewrite !elem_of_cons; tauto).
  rewrite Hp. reflexivity.
Qed.

Lemma read_record_defined filename r w w' :
  read filename w = Some (r, w') -> exists rec, load w' = Some rec.
Proof.
  intros E.
  pose proof (read_string_view _ _ _ _ E) as S.
  pose proof (read_int_view _ _ _ _ E) as I.
  pose proof (read_ptr_view _ _ _ _ E) as P.
  assert (Hs : forall q, q ∈ [patient_name; patient_id; study_uid;
                              series_uid; instance_uid; modality] ->
                         is_Some (string_at w' q)).
  { intros q Hq. rewrite S. rewrite !elem_of_cons in Hq.
    repeat case_decide; eauto.
    destruct Hq as [?|[?|[?|[?|[?|[?|Hq]]]]]]; try contradiction.
    apply elem_of_nil in Hq. contradiction. }
  assert (Hi : forall q, q ∈ [width; height; bits_per_pixel;
                              pixel_data_length] ->
                         is_Some (int_at w' q)).
  { intros q Hq. rewrite I. rewrite !elem_of_cons in Hq.
    repeat case_decide; eauto.
    destruct Hq as [?|[?|[?|[?|Hq]]]]; try contradiction.
    apply elem_of_nil in Hq. contradiction. }
  unfold load_record.
  destruct (Hs patient_name) as [? ->]; [rewrite !elem_of_cons; tauto|].
  destruct (Hs patient_id) as [? ->]; [rewrite !elem_of_cons; tauto|].
  destruct (Hs study_uid) as [? ->]; [rewrite !elem_of_cons; tauto|].
  destruct (Hs series_uid) as [? ->]; [rewrite !elem_of_cons; tauto|].
  destruct (Hs instance_uid) as [? ->]; [rewrite !elem_of_cons; tauto|].
  destruct (Hs modality) as [? ->]; [rewrite !elem_of_cons; tauto|].
  destruct (Hi width) as [? ->]; [rewrite !elem_of_cons; tauto|].
  destruct (Hi height) as [? ->]; [rewrite !elem_of_cons; tauto|].
  destruct (Hi bits_per_pixel) as [? ->]; [rewrite !elem_of_cons; tauto|].
  destruct (Hi pixel_data_length) as [? ->]; [rewrite !elem_of_cons; tauto|].
  rewrite P, decide_True by reflexivity. simpl. eauto.
Qed.

(** C8: [read_dicom_file_simple] returns 0 (success) for every input,
    whatever the file name and whether or not the file exists: no call
    reports an error through its return value, and every call whose
    outputs are valid returns 0. *)
Theorem read_always_returns_zero filename w :
  ~ reports_error (read filename w) /\
  (valid w -> succeeds (read filename w)).
Proof.
  split.
  - intros (r & w' & E & Hr). apply read_inv in E as [-> _]. contradiction.
  - intros V. apply read_defined. exact V.
Qed.

(** C9: the outputs of [read_dicom_file_simple] do not depend on its
    file name: two calls from the same state with any two file names
    have the same result and leave the same state, and with valid and
    distinct outputs both return 0 and leave "Test Patient", "TEST001",
    the three fixed UIDs, "CT", 512, 512, 16, NULL and 0 in the
    outputs. *)
Theorem read_independent_of_filename filename filename' w :
  read filename w = read filename' w /\
  (valid w -> NoDup outs ->
   exists w', read filename w = Some (0, w') /\
              read filename' w = Some (0, w') /\
              load w' = Some dummy_record).
Proof.
  split; [reflexivity|]. intros V ND.
  destruct (read_defined filename w V) as [w' E].
  exists w'. split; [exact E|]. split; [exact E|].
  apply read_inv in E as (_ & _ & _ & L). apply L. exact ND.
Qed.

(** C1, amended: after a read that has succeeded, writing the record it
    left, to any file name, succeeds but serialises nothing: the files
    are still those the read found.  Reading again succeeds and leaves
    the same record in the outputs, and so does every defined read into
    these outputs, from any state and for any file name: the record is
    equal because the reader stores fixed values, not because it is
    decoded from written bytes. *)
Theorem round_trip filename filename' w w1 :
  read filename w = Some (0, w1) ->
  exists rec w1' w2,
    load w1 = Some rec /\
    write_dicom_file_simple filename'
      patient_name patient_id study_uid series_uid instance_uid modality
      (rec_width rec) (rec_height rec) (rec_bits_per_pixel rec)
      (rec_pixel_data rec) (rec_pixel_data_length rec) w1 = Some (0, w1') /\
    files w1' = files w /\
    read filename' w1' = Some (0, w2) /\
    load w2 = Some rec /\
    forall name wa ra wa',
      read name wa = Some (ra, wa') -> load wa' = Some rec.
Proof.
  intros E. destruct (read_record_defined _ _ _ _ E) as [rec L].
  pose proof (read_inv _ _ _ _ E) as (_ & V & W & _).
  assert (V1 : valid w1).
  { unfold valid_outputs, can_hold in *. forward W. exact V. }
  destruct (read_defined filename' w1 V1) as [w2 E2].
  exists rec, w1, w2. split; [exact L|]. split; [reflexivity|].
  split; [exact (proj1 W)|]. split; [exact E2|]. split.
  - rewrite <- L. symmetry. exact (read_record_fixed _ _ _ _ _ _ _ _ E E2).
  - intros name wa ra wa' Ea. rewrite <- L. symmetry.
    exact (read_record_fixed _ _ _ _ _ _ _ _ E Ea).
Qed.


(** C2, amended: an input whose bytes 128..132 are not "DICM" is read
    like any other: the call with valid outputs returns 0 and reports no
    error. *)
Theorem read_ignores_magic filename w B :
  file_named w filename = Some B -> has_dicm_magic B = false -> valid w ->
  succeeds (read filename w) /\ ~ reports_error (read filename w).
Proof.
  intros _ _ V. split; [apply read_defined; exact V|].
  intros (r & w' & E & Hr). apply read_inv in E as [-> _]. contradiction.
Qed.

(** C3, amended: an input of fewer than 132 bytes is read like any
    other: the call with valid outputs returns 0, and with distinct
    outputs it leaves the dummy record in them. *)
Theorem read_ignores_truncation filename w B :
  file_named w filename = Some B -> (length B < 132)%nat -> valid w ->
  exists w', read filename w = Some (0, w') /\
             (NoDup outs -> load w' = Some dummy_record).
Proof.
  intros _ _ V. destruct (read_defined filename w V) as [w' E].
  exists w'. split; [exact E|].
  apply read_inv in E as (_ & _ & _ & L). exact L.
Qed.

(** C4, amended: for 512 rows, 512 columns, 16 bits allocated, one
    sample per pixel and one frame the conformant length is 524288
    bytes, and the code compares no buffer with it: a read into valid,
    distinct outputs returns 0 and leaves these dimensions with a NULL
    pixel buffer of length 0, and a write of such an image returns 0 for
    a pixel buffer of any length. *)
Theorem pixel_length_not_checked filename w :
  valid w -> NoDup outs ->
  exists w' rec,
    read filename w = Some (0, w') /\ load w' = Some rec /\
    conformant_pixel_length
      (rec_height rec) (rec_width rec) (rec_bits_per_pixel rec) 1 1 = 524288 /\
    rec_pixel_data rec = NULL /\ rec_pixel_data_length rec = 0 /\
    forall filename' buffer n w2,
      write_dicom_file_simple filename'
        patient_name patient_id study_uid series_uid instance_uid modality
        (rec_width rec) (rec_height rec) (rec_bits_per_pixel rec)
        buffer n w2 = Some (0, w2).
Proof.
  intros V ND. destruct (read_defined filename w V) as [w' E].
  exists w', dummy_record. split; [exact E|].
  apply read_inv in E as (_ & _ & _ & L).
  split; [apply L; exact ND|]. repeat split; reflexivity.
Qed.

End Reader.

(** ** The writer *)

Section Writer.

Variables filename patient_name patient_id : ptr.
Variables study_uid series_uid instance_uid modality : ptr.
Variables width height bits_allocated : Z.
Variable pixel_data : ptr.
Variable pixel_data_length : Z.

Local Abbreviation write :=
  (write_dicom_file_simple filename
     patient_name patient_id study_uid series_uid instance_uid modality
     width height bits_allocated pixel_data pixel_data_length).

(** C10: [write_dicom_file_simple] returns 0 for all arguments and has
    no effect: the objects of the store, its input buffers among them,
    and the files are as before, and the result is the same whatever the
    store and the files hold, so nothing is read; null or dangling
    pointers and any length are accepted. *)
Theorem write_has_no_effect w :
  exists w',
    write_dicom_file_simple filename
      patient_name patient_id study_uid series_uid instance_uid modality
      width height bits_allocated pixel_data pixel_data_length w
    = Some (0, w') /\
    mem w' = mem w /\ files w' = files w /\
    forall w2, fst <$> write w2 = Some 0.
Proof. exists w. repeat split. Qed.

(** C5, amended: the code validates no UID: whatever strings the study,
    series and instance UID arguments of the writer hold, well-formed or
    not, the call returns 0 and reports no error. *)
Theorem uids_not_validated w u1 u2 u3 :
  string_at w study_uid = Some u1 ->
  string_at w series_uid = Some u2 ->
  string_at w instance_uid = Some u3 ->
  succeeds (write w) /\ ~ reports_error (write w).
Proof.
  intros _ _ _. split.
  - exists w. reflexivity.
  - intros (r & w' & E & Hr). injection E as <- _. contradiction.
Qed.

(** C7, amended: the writer produces no bytes, hence no group-length
    element: every call returns 0 and leaves the files as they were, so
    the file it names holds the group length it held before the call, or
    none. *)
Theorem write_derives_no_group_length w :
  exists w', write w = Some (0, w') /\ files w' = files w /\
             output_group_length w' filename = output_group_length w filename.
Proof. exists w. repeat split. Qed.

End Writer.

(** ** The notions of the specification on its own examples *)

Remark uid_examples :
  uid_well_formed "1.2.840.10008.1.1" = true /\
  uid_well_formed "1.2..3" = false /\
  forall uid, String.length uid = 65%nat -> uid_well_formed uid = false.
Proof.
  split; [reflexivity|]. split; [reflexivity|].
  intros uid H. unfold uid_well_formed. rewrite H. reflexivity.
Qed.

Remark header_178_group_length :
  has_dicm_magic Caller.header_178 = true /\
  file_meta_group_length Caller.header_178 = Some 178.
Proof. split; reflexivity. Qed.

(** ** The properties at concrete callers *)

Import Caller.

Ltac valid_by_eval :=
  repeat split;
  try (eexists; split; [reflexivity | vm_compute; lia]).

Lemma read_always_returns_zero_witness :
  file_named w_missing (Ptr 12) = None /\ valid w_missing /\
  succeeds (run_read w_missing).
Proof.
  split; [reflexivity|].
  assert (V : valid w_missing) by valid_by_eval.
  split; [exact V|].
  exact (proj2 (read_always_returns_zero
           (Ptr 1) (Ptr 2) (Ptr 3) (Ptr 4) (Ptr 5) (Ptr 6)
           (Ptr 7) (Ptr 8) (Ptr 9) (Ptr 10) (Ptr 11) (Ptr 12) w_missing) V).
Defined.

Lemma read_independent_of_filename_witness :
  valid w_zeros /\ NoDup outputs /\
  exists w', run_read w_zeros = Some (0, w') /\
             read_dicom_file_simple NULL
               (Ptr 1) (Ptr 2) (Ptr 3) (Ptr 4) (Ptr 5) (Ptr 6)
               (Ptr 7) (Ptr 8) (Ptr 9) (Ptr 10) (Ptr 11) w_zeros = Some (0, w') /\
             load w' = Some dummy_record.
Proof.
  assert (V : valid w_zeros) by valid_by_eval.
  assert (ND : NoDup outputs) by by_decide.
  split; [exact V|]. split; [exact ND|].
  exact (proj2 (read_independent_of_filename
           (Ptr 1) (Ptr 2) (Ptr 3) (Ptr 4) (Ptr 5) (Ptr 6)
           (Ptr 7) (Ptr 8) (Ptr 9) (Ptr 10) (Ptr 11) (Ptr 12) NULL w_zeros) V ND).
Defined.

(** C1 as stated fails: "scan.dcm", a Part-10 file, is read with
    success and the record is written to "copy.dcm" with success, and
    afterwards there is no file "copy.dcm": the write has produced no
    bytes that a read could decode. *)
Lemma round_trip_counterexample :
  file_named (Copier.copy_world Copier.fresh_file) (Ptr 12)
    = Some Copier.fresh_file /\
  has_dicm_magic Copier.fresh_file = true /\
  run_read (Copier.copy_world Copier.fresh_file)
    = Some (0, after_read (Copier.copy_world Copier.fresh_file)) /\
  load (after_read (Copier.copy_world Copier.fresh_file))
    = Some dummy_record /\
  string_at (after_read (Copier.copy_world Copier.fresh_file)) (Ptr 13)
    = Some "copy.dcm"%string /\
  Copier.write_back (Ptr 13)
      (after_read (Copier.copy_world Copier.fresh_file))
    = Some (0, after_read (Copier.copy_world Copier.fresh_file)) /\
  file_named (after_read (Copier.copy_world Copier.fresh_file)) (Ptr 13)
    = None.
Proof.
  repeat (split; [vm_compute; reflexivity|]). vm_compute. reflexivity.
Qed.

Lemma round_trip_witness :
  run_read (Copier.copy_world Copier.fresh_file)
    = Some (0, after_read (Copier.copy_world Copier.fresh_file)) /\
  exists rec w1' w2,
    load (after_read (Copier.copy_world Copier.fresh_file)) = Some rec /\
    write_dicom_file_simple (Ptr 13)
      (Ptr 1) (Ptr 2) (Ptr 3) (Ptr 4) (Ptr 5) (Ptr 6)
      (rec_width rec) (rec_height rec) (rec_bits_per_pixel rec)
      (rec_pixel_data rec) (rec_pixel_data_length rec)
      (after_read (Copier.copy_world Copier.fresh_file)) = Some (0, w1') /\
    files w1' = files (Copier.copy_world Copier.fresh_file) /\
    read_dicom_file_simple (Ptr 13)
      (Ptr 1) (Ptr 2) (Ptr 3) (Ptr 4) (Ptr 5) (Ptr 6)
      (Ptr 7) (Ptr 8) (Ptr 9) (Ptr 10) (Ptr 11) w1' = Some (0, w2) /\
    load w2 = Some rec /\
    forall name wa ra wa',
      read_dicom_file_simple name
        (Ptr 1) (Ptr 2) (Ptr 3) (Ptr 4) (Ptr 5) (Ptr 6)
        (Ptr 7) (Ptr 8) (Ptr 9) (Ptr 10) (Ptr 11) wa = Some (ra, wa') ->
      load wa' = Some rec.
Proof.
  assert (E : run_read (Copier.copy_world Copier.fresh_file)
              = Some (0, after_read (Copier.copy_world Copier.fresh_file)))
    by (vm_compute; reflexivity).
  split; [exact E|].
  exact (round_trip
           (Ptr 1) (Ptr 2) (Ptr 3) (Ptr 4) (Ptr 5) (Ptr 6)
           (Ptr 7) (Ptr 8) (Ptr 9) (Ptr 10) (Ptr 11)
           (Ptr 12) (Ptr 13) (Copier.copy_world Copier.fresh_file)
           (after_read (Copier.copy_world Copier.fresh_file)) E).
Defined.



(** C2 as stated fails: the file is 132 zero bytes, without the magic,
    and the read succeeds and reports no error. *)
Lemma magic_check_counterexample :
  file_named w_zeros (Ptr 12) = Some (replicate 132 x00) /\
  has_dicm_magic (replicate 132 x00) = false /\
  run_read w_zeros = Some (0, after_read w_zeros) /\
  ~ reports_error (run_read w_zeros).
Proof.
  split; [reflexivity|]. split; [reflexivity|].
  split; [vm_compute; reflexivity|].
  intros (r & w' & E & Hr). unfold run_read in E.
  apply read_inv in E as [-> _]. contradiction.
Qed.

Lemma read_ignores_magic_witness :
  file_named w_zeros (Ptr 12) = Some (replicate 132 x00) /\
  has_dicm_magic (replicate 132 x00) = false /\ valid w_zeros /\
  succeeds (run_read w_zeros) /\ ~ reports_error (run_read w_zeros).
Proof.
  assert (F : file_named w_zeros (Ptr 12) = Some (replicate 132 x00))
    by reflexivity.
  assert (Hm : has_dicm_magic (replicate 132 x00) = false) by reflexivity.
  assert (V : valid w_zeros) by valid_by_eval.
  split; [exact F|]. split; [exact Hm|]. split; [exact V|].
  exact (read_ignores_magic
           (Ptr 1) (Ptr 2) (Ptr 3) (Ptr 4) (Ptr 5) (Ptr 6)
           (Ptr 7) (Ptr 8) (Ptr 9) (Ptr 10) (Ptr 11)
           (Ptr 12) w_zeros (replicate 132 x00) F Hm V).
Defined.

(** C3 as stated fails: the file is 10 bytes long, and the read succeeds,
    reports no error and leaves a record in the outputs. *)
Lemma truncated_header_counterexample :
  file_named w_short (Ptr 12) = Some (replicate 10 x00) /\
  (length (replicate 10 x00) < 132)%nat /\
  run_read w_short = Some (0, after_read w_short) /\
  ~ reports_error (run_read w_short) /\
  load (after_read w_short) = Some dummy_record.
Proof.
  split; [reflexivity|]. split; [vm_compute; lia|].
  split; [vm_compute; reflexivity|]. split; [|vm_compute; reflexivity].
  intros (r & w' & E & Hr). unfold run_read in E.
  apply read_inv in E as [-> _]. contradiction.
Qed.

Lemma read_ignores_truncation_witness :
  file_named w_short (Ptr 12) = Some (replicate 10 x00) /\
  (length (replicate 10 x00) < 132)%nat /\ valid w_short /\
  exists w', run_read w_short = Some (0, w') /\
             (NoDup outputs -> load w' = Some dummy_record).
Proof.
  assert (F : file_named w_short (Ptr 12) = Some (replicate 10 x00))
    by reflexivity.
  assert (Hl : (length (replicate 10 x00) < 132)%nat) by (vm_compute; lia).
  assert (V : valid w_short) by valid_by_eval.
  split; [exact F|]. split; [exact Hl|]. split; [exact V|].
  exact (read_ignores_truncation
           (Ptr 1) (Ptr 2) (Ptr 3) (Ptr 4) (Ptr 5) (Ptr 6)
           (Ptr 7) (Ptr 8) (Ptr 9) (Ptr 10) (Ptr 11)
           (Ptr 12) w_short (replicate 10 x00) F Hl V).
Defined.

(** C4 as stated fails: the pixel array has 524287 bytes, one fewer than
    the conformant length for the dimensions passed, and the write
    succeeds and reports no error. *)
Lemma pixel_sizing_counterexample :
  conformant_pixel_length 512 512 16 1 1 = 524288 /\
  obj_at (writer_world (Z.to_nat 524287)) (Ptr 7)
    = Some (CharBuf (replicate (Z.to_nat 524287) x00)) /\
  Z.of_nat (length (replicate (Z.to_nat 524287) x00)) = 524287 /\
  run_write (Z.to_nat 524287) = Some (0, writer_world (Z.to_nat 524287)) /\
  ~ reports_error (run_write (Z.to_nat 524287)).
Proof.
  split; [reflexivity|]. split; [reflexivity|].
  split; [rewrite length_replicate; lia|]. split; [reflexivity|].
  intros (r & w' & E & Hr). injection E as <- _. contradiction.
Qed.

Lemma pixel_length_not_checked_witness :
  valid w_missing /\ NoDup outputs /\
  exists w' rec,
    run_read w_missing = Some (0, w') /\ load w' = Some rec /\
    conformant_pixel_length
      (rec_height rec) (rec_width rec) (rec_bits_per_pixel rec) 1 1 = 524288 /\
    rec_pixel_data rec = NULL /\ rec_pixel_data_length rec = 0 /\
    forall filename' buffer n w2,
      write_dicom_file_simple filename'
        (Ptr 1) (Ptr 2) (Ptr 3) (Ptr 4) (Ptr 5) (Ptr 6)
        (rec_width rec) (rec_height rec) (rec_bits_per_pixel rec)
        buffer n w2 = Some (0, w2).
Proof.
  assert (V : valid w_missing) by valid_by_eval.
  assert (ND : NoDup outputs) by by_decide.
  split; [exact V|]. split; [exact ND|].
  exact (pixel_length_not_checked
           (Ptr 1) (Ptr 2) (Ptr 3) (Ptr 4) (Ptr 5) (Ptr 6)
           (Ptr 7) (Ptr 8) (Ptr 9) (Ptr 10) (Ptr 11)
           (Ptr 12) w_missing V ND).
Defined.

(** C5 as stated fails: the study UID argument holds "1.2..3" and the
    series UID argument a string of 65 characters, neither well-formed,
    and the write succeeds and reports no error. *)
Lemma uid_validation_counterexample :
  string_at (writer_world 0) (Ptr 3) = Some "1.2..3"%string /\
  uid_well_formed "1.2..3" = false /\
  string_at (writer_world 0) (Ptr 4) = Some uid65 /\
  String.length uid65 = 65%nat /\
  uid_well_formed uid65 = false /\
  run_write 0 = Some (0, writer_world 0) /\
  ~ reports_error (run_write 0).
Proof.
  repeat (split; [reflexivity|]).
  intros (r & w' & E & Hr). injection E as <- _. contradiction.
Qed.

Lemma uids_not_validated_witness :
  string_at (writer_world 0) (Ptr 3) = Some "1.2..3"%string /\
  string_at (writer_world 0) (Ptr 4) = Some uid65 /\
  string_at (writer_world 0) (Ptr 5) = Some "1.2.840.10008.1.1"%string /\
  succeeds (run_write 0) /\ ~ reports_error (run_write 0).
Proof.
  assert (H1 : string_at (writer_world 0) (Ptr 3) = Some "1.2..3"%string)
    by reflexivity.
  assert (H2 : string_at (writer_world 0) (Ptr 4) = Some uid65)
    by reflexivity.
  assert (H3 : string_at (writer_world 0) (Ptr 5)
               = Some "1.2.840.10008.1.1"%string) by reflexivity.
  split; [exact H1|]. split; [exact H2|]. split; [exact H3|].
  exact (uids_not_validated (Ptr 12)
           (Ptr 1) (Ptr 2) (Ptr 3) (Ptr 4) (Ptr 5) (Ptr 6)
           512 512 16 (Ptr 7) (Z.of_nat 0) (writer_world 0)
           "1.2..3" uid65 "1.2.840.10008.1.1" H1 H2 H3).
Defined.

(** C7 as stated fails: "scan.dcm" holds a file-meta group of true size
    178 behind a stale group length of 200.  It is read with success,
    and the record is written back with success, over "scan.dcm" and to
    "copy.dcm".  Afterwards "scan.dcm" still holds the group length 200,
    not 178, and "copy.dcm" does not exist: the write has derived no
    group length. *)
Lemma group_length_counterexample :
  group_size meta_elements = 178 /\
  file_named (Copier.copy_world Copier.stale_file) (Ptr 12)
    = Some (part10_file 200 meta_elements) /\
  file_meta_group_length (part10_file 200 meta_elements) = Some 200 /\
  run_read (Copier.copy_world Copier.stale_file)
    = Some (0, after_read (Copier.copy_world Copier.stale_file)) /\
  load (after_read (Copier.copy_world Copier.stale_file))
    = Some dummy_record /\
  Copier.write_back (Ptr 12)
      (after_read (Copier.copy_world Copier.stale_file))
    = Some (0, after_read (Copier.copy_world Copier.stale_file)) /\
  output_group_length
      (after_read (Copier.copy_world Copier.stale_file)) (Ptr 12)
    = Some 200 /\
  Copier.write_back (Ptr 13)
      (after_read (Copier.copy_world Copier.stale_file))
    = Some (0, after_read (Copier.copy_world Copier.stale_file)) /\
  output_group_length
      (after_read (Copier.copy_world Copier.stale_file)) (Ptr 13)
    = None.
Proof.
  repeat (split; [vm_compute; reflexivity|]). vm_compute. reflexivity.
Qed.

(** * Further properties of the reader *)

(** ** The reader, store by store *)

Section ReaderStores.

Variables patient_name patient_id study_uid series_uid instance_uid : ptr.
Variables modality width height bits_per_pixel : ptr.
Variables pixel_data pixel_data_length : ptr.

Local Abbreviation outs :=
  (output_list patient_name patient_id study_uid series_uid instance_uid
     modality width height bits_per_pixel pixel_data pixel_data_length).
Local Abbreviation strings :=
  (string_outputs patient_name patient_id study_uid series_uid instance_uid
     modality).
Local Abbreviation read filename :=
  (read_dicom_file_simple filename
     patient_name patient_id study_uid series_uid instance_uid
     modality width height bits_per_pixel pixel_data pixel_data_length).

(** X1: a defined call changes nothing but the objects of its eleven
    outputs: the files are as before, every object of the store has kept
    its kind and size, and the objects that no output addresses are as
    before. *)
Theorem read_frame filename r w w' :
  read filename w = Some (r, w') ->
  files w' = files w /\
  (forall q, shape_at w' q = shape_at w q) /\
  (forall q, q ∉ outs -> obj_at w' q = obj_at w q).
Proof.
  intros E. apply read_inv in E as (_ & _ & W & _). exact W.
Qed.

(** X2: a call overruns its outputs or stores through nothing, and is
    undefined, when the patient name, patient ID, study UID, series UID,
    instance UID or modality output addresses a character array of
    fewer than 13, 8, 10, 12, 14 or 3 bytes, and when one of the eleven
    outputs is null or addresses no object. *)
Theorem read_overflow_undefined filename w :
  (exists p n buf,
     (p, n) ∈ [(patient_name, 13%nat); (patient_id, 8%nat);
               (study_uid, 10%nat); (series_uid, 12%nat);
               (instance_uid, 14%nat); (modality, 3%nat)] /\
     obj_at w p = Some (CharBuf buf) /\ (length buf < n)%nat) \/
  (exists p, p ∈ outs /\ obj_at w p = None) ->
  read filename w = None.
Proof.
  intros H. destruct (read filename w) as [[r w']|] eqn:E; [|reflexivity].
  exfalso. apply read_inv in E as (_ & V & _).
  destruct V as (V1 & V2 & V3 & V4 & V5 & V6 & V7 & V8 & V9 & V10 & V11).
  unfold can_hold, shape_at in *.
  destruct V1 as (m1 & S1 & L1). destruct V2 as (m2 & S2 & L2).
  destruct V3 as (m3 & S3 & L3). destruct V4 as (m4 & S4 & L4).
  destruct V5 as (m5 & S5 & L5). destruct V6 as (m6 & S6 & L6).
  destruct H as [(p & n & buf & Hin & Hb & Hlt)|(p & Hin & Hnone)].
  - rewrite !elem_of_cons in Hin.
    destruct Hin as [Hin|[Hin|[Hin|[Hin|[Hin|[Hin|Hin]]]]]];
      [| | | | | | apply elem_of_nil in Hin; contradiction];
      injection Hin as -> ->; rewrite Hb in *; cbn in *;
      simplify_eq; lia.
  - unfold output_list in Hin. rewrite !elem_of_cons in Hin.
    destruct Hin as [->|[->|[->|[->|[->|[->|[->|[->|[->|[->|[->|Hin]]]]]]]]]]];
      [| | | | | | | | | | | apply elem_of_nil in Hin; contradiction];
      rewrite Hnone in *; discriminate.
Qed.


(** X4: whatever objects the outputs share, after a defined call the
    [int] read through any pointer is that of the last store to that
    pointer, in the order length (0), bits per pixel (16), height (512),
    width (512), and the pointer read through the pixel output is NULL;
    through other pointers they are what they were. *)
Theorem read_scalars_last_store filename r w w' :
  read filename w = Some (r, w') ->
  forall q,
    int_at w' q =
      (if decide (q = pixel_data_length) then Some 0
       else if decide (q = bits_per_pixel) then Some 16
       else if decide (q = height) then Some 512
       else if decide (q = width) then Some 512
       else int_at w q) /\
    ptr_at w' q =
      (if decide (q = pixel_data) then Some NULL else ptr_at w q).
Proof.
  intros E q. invert_read E. split.
  - rewrite (store_int_int_at _ _ _ _ _ E11).
    rewrite (store_ptr_int_at _ _ _ _ _ E10).
    rewrite (store_int_int_at _ _ _ _ _ E9).
    rewrite (store_int_int_at _ _ _ _ _ E8).
    rewrite (store_int_int_at _ _ _ _ _ E7).
    rewrite (strcpy_int_at _ _ _ _ _ E6), (strcpy_int_at _ _ _ _ _ E5).
    rewrite (strcpy_int_at _ _ _ _ _ E4), (strcpy_int_at _ _ _ _ _ E3).
    rewrite (strcpy_int_at _ _ _ _ _ E2), (strcpy_int_at _ _ _ _ _ E1).
    reflexivity.
  - rewrite (store_int_ptr_at _ _ _ _ _ E11).
    rewrite (store_ptr_ptr_at _ _ _ _ _ E10).
    rewrite (store_int_ptr_at _ _ _ _ _ E9).
    rewrite (store_int_ptr_at _ _ _ _ _ E8).
    rewrite (store_int_ptr_at _ _ _ _ _ E7).
    rewrite (strcpy_ptr_at _ _ _ _ _ E6), (strcpy_ptr_at _ _ _ _ _ E5).
    rewrite (strcpy_ptr_at _ _ _ _ _ E4), (strcpy_ptr_at _ _ _ _ _ E3).
    rewrite (strcpy_ptr_at _ _ _ _ _ E2), (strcpy_ptr_at _ _ _ _ _ E1).
    reflexivity.
Qed.

(** X5: a defined call with distinct outputs keeps the size of each
    string array and every byte after the NUL of the string it leaves
    there: the rest of the array is not cleared. *)
Theorem read_keeps_tails filename r w w' :
  read filename w = Some (r, w') -> NoDup outs ->
  forall p buf buf' s,
    p ∈ strings ->
    obj_at w p = Some (CharBuf buf) -> obj_at w' p = Some (CharBuf buf') ->
    string_at w' p = Some s ->
    length buf' = length buf /\
    forall i, (String.length s < i)%nat -> buf' !! i = buf !! i.
Proof.
  intros E ND p buf buf' s Hp Hb Hb' Hs. invert_read E.
  unfold output_list in ND. distinct ND.
  unfold string_outputs in Hp. rewrite !elem_of_cons in Hp.
  destruct Hp as [->|[->|[->|[->|[->|[->|Hp]]]]]];
    [| | | | | | apply elem_of_nil in Hp; contradiction].
  - eapply (strcpy_tail _ _ _ _ _ E1);
      [by_decide | back; exact Hb | back_in Hb'; exact Hb'
      | unfold string_at in *; back_in Hs; exact Hs].
  - eapply (strcpy_tail _ _ _ _ _ E2);
      [by_decide | back; exact Hb | back_in Hb'; exact Hb'
      | unfold string_at in *; back_in Hs; exact Hs].
  - eapply (strcpy_tail _ _ _ _ _ E3);
      [by_decide | back; exact Hb | back_in Hb'; exact Hb'
      | unfold string_at in *; back_in Hs; exact Hs].
  - eapply (strcpy_tail _ _ _ _ _ E4);
      [by_decide | back; exact Hb | back_in Hb'; exact Hb'
      | unfold string_at in *; back_in Hs; exact Hs].
  - eapply (strcpy_tail _ _ _ _ _ E5);
      [by_decide | back; exact Hb | back_in Hb'; exact Hb'
      | unfold string_at in *; back_in Hs; exact Hs].
  - eapply (strcpy_tail _ _ _ _ _ E6);
      [by_decide | back; exact Hb | back_in Hb'; exact Hb'
      | unfold string_at in *; back_in Hs; exact Hs].
Qed.

(** X6: reading twice is reading once: after a defined call with
    distinct outputs, a second call into the same outputs, for any file
    name, returns 0 and leaves the state exactly as it found it. *)
Theorem read_idempotent filename filename' r w w' :
  read filename w = Some (r, w') -> NoDup outs ->
  read_dicom_file_simple filename'
    patient_name patient_id study_uid series_uid instance_uid
    modality width height bits_per_pixel pixel_data pixel_data_length w'
  = Some (0, w').
Proof.
  intros E ND. invert_read E. unfold output_list in ND. distinct ND.
  assert (K1 : obj_at w11 patient_name = obj_at w1 patient_name)
    by (back; reflexivity).
  assert (K2 : obj_at w11 patient_id = obj_at w2 patient_id)
    by (back; reflexivity).
  assert (K3 : obj_at w11 study_uid = obj_at w3 study_uid)
    by (back; reflexivity).
  assert (K4 : obj_at w11 series_uid = obj_at w4 series_uid)
    by (back; reflexivity).
  assert (K5 : obj_at w11 instance_uid = obj_at w5 instance_uid)
    by (back; reflexivity).
  assert (K6 : obj_at w11 modality = obj_at w6 modality)
    by (back; reflexivity).
  assert (K7 : obj_at w11 width = obj_at w7 width)
    by (back; reflexivity).
  assert (K8 : obj_at w11 height = obj_at w8 height)
    by (back; reflexivity).
  assert (K9 : obj_at w11 bits_per_pixel = obj_at w9 bits_per_pixel)
    by (back; reflexivity).
  assert (K10 : obj_at w11 pixel_data = obj_at w10 pixel_data)
    by (back; reflexivity).
  unfold read_dicom_file_simple.
  rewrite (bind_run _ _ _ _ _ (strcpy_again _ _ _ _ _ _ E1 K1)).
  rewrite (bind_run _ _ _ _ _ (strcpy_again _ _ _ _ _ _ E2 K2)).
  rewrite (bind_run _ _ _ _ _ (strcpy_again _ _ _ _ _ _ E3 K3)).
  rewrite (bind_run _ _ _ _ _ (strcpy_again _ _ _ _ _ _ E4 K4)).
  rewrite (bind_run _ _ _ _ _ (strcpy_again _ _ _ _ _ _ E5 K5)).
  rewrite (bind_run _ _ _ _ _ (strcpy_again _ _ _ _ _ _ E6 K6)).
  rewrite (bind_run _ _ _ _ _ (store_int_again _ _ _ _ _ _ E7 K7)).
  rewrite (bind_run _ _ _ _ _ (store_int_again _ _ _ _ _ _ E8 K8)).
  rewrite (bind_run _ _ _ _ _ (store_int_again _ _ _ _ _ _ E9 K9)).
  rewrite (bind_run _ _ _ _ _ (store_ptr_again _ _ _ _ _ _ E10 K10)).
  rewrite (bind_run _ _ _ _ _ (store_int_again _ _ _ _ _ _ E11 eq_refl)).
  reflexivity.
Qed.

(** X7: the reader never looks at the files: next to any other files a
    call is defined or not as before, returns the same value and leaves
    the same store, and those files untouched. *)
Theorem read_ignores_files filename fs w :
  read filename (with_files fs w) = result_with_files fs (read filename w).
Proof.
  assert (O : oblivious (read filename)).
  { unfold read_dicom_file_simple.
    repeat (apply oblivious_bind;
            [first [apply oblivious_strcpy | apply oblivious_store_int
                   | apply oblivious_store_ptr]
            | intros _]).
    apply oblivious_ret. }
  apply O.
Qed.

End ReaderStores.

(** ** These properties at concrete callers *)

Lemma read_frame_witness :
  run_read w_zeros = Some (0, after_read w_zeros) /\
  files (after_read w_zeros) = files w_zeros /\
  (forall q, shape_at (after_read w_zeros) q = shape_at w_zeros q) /\
  (forall q, q ∉ outputs -> obj_at (after_read w_zeros) q = obj_at w_zeros q).
Proof.
  assert (E : run_read w_zeros = Some (0, after_read w_zeros))
    by (vm_compute; reflexivity).
  split; [exact E|].
  exact (read_frame
           (Ptr 1) (Ptr 2) (Ptr 3) (Ptr 4) (Ptr 5) (Ptr 6)
           (Ptr 7) (Ptr 8) (Ptr 9) (Ptr 10) (Ptr 11)
           (Ptr 12) 0 w_zeros (after_read w_zeros) E).
Defined.

Lemma read_overflow_undefined_witness :
  obj_at w_tight (Ptr 1) = Some (CharBuf (replicate 12 xcc)) /\
  (length (replicate 12 xcc) < 13)%nat /\
  run_read w_tight = None.
Proof.
  assert (Hb : obj_at w_tight (Ptr 1) = Some (CharBuf (replicate 12 xcc)))
    by reflexivity.
  assert (Hlt : (length (replicate 12 xcc) < 13)%nat) by (vm_compute; lia).
  split; [exact Hb|]. split; [exact Hlt|].
  apply (read_overflow_undefined
           (Ptr 1) (Ptr 2) (Ptr 3) (Ptr 4) (Ptr 5) (Ptr 6)
           (Ptr 7) (Ptr 8) (Ptr 9) (Ptr 10) (Ptr 11) (Ptr 12) w_tight).
  left. exists (Ptr 1), 13%nat, (replicate 12 xcc).
  split; [by_decide|]. split; [exact Hb | exact Hlt].
Defined.


Lemma read_scalars_last_store_witness :
  Aliased.run_read w_missing = Some (0, Aliased.after_read w_missing) /\
  int_at (Aliased.after_read w_missing) (Ptr 7) = Some 0 /\
  ptr_at (Aliased.after_read w_missing) (Ptr 10) = Some NULL.
Proof.
  assert (E : Aliased.run_read w_missing
              = Some (0, Aliased.after_read w_missing))
    by (vm_compute; reflexivity).
  pose proof (read_scalars_last_store
                (Ptr 1) (Ptr 1) (Ptr 3) (Ptr 3) (Ptr 3) (Ptr 6)
                (Ptr 7) (Ptr 7) (Ptr 7) (Ptr 10) (Ptr 7)
                (Ptr 12) 0 w_missing (Aliased.after_read w_missing) E) as L.
  split; [exact E|].
  split; [exact (proj1 (L (Ptr 7))) | exact (proj2 (L (Ptr 10)))].
Defined.

Lemma read_keeps_tails_witness :
  run_read w_missing = Some (0, after_read w_missing) /\ NoDup outputs /\
  obj_at w_missing (Ptr 1) = Some (CharBuf (replicate 64 xcc)) /\
  obj_at (after_read w_missing) (Ptr 1)
    = Some (CharBuf (list_byte_of_string "Test Patient"
                       ++ x00 :: replicate 51 xcc)) /\
  forall i, (12 < i)%nat ->
    (list_byte_of_string "Test Patient" ++ x00 :: replicate 51 xcc) !! i
    = replicate 64 xcc !! i.
Proof.
  assert (E : run_read w_missing = Some (0, after_read w_missing))
    by (vm_compute; reflexivity).
  assert (ND : NoDup outputs) by by_decide.
  assert (Hp : Ptr 1 ∈ string_outputs
                 (Ptr 1) (Ptr 2) (Ptr 3) (Ptr 4) (Ptr 5) (Ptr 6))
    by by_decide.
  assert (Hb : obj_at w_missing (Ptr 1) = Some (CharBuf (replicate 64 xcc)))
    by reflexivity.
  assert (Hb' : obj_at (after_read w_missing) (Ptr 1)
                = Some (CharBuf (list_byte_of_string "Test Patient"
                                   ++ x00 :: replicate 51 xcc)))
    by (vm_compute; reflexivity).
  assert (Hs : string_at (after_read w_missing) (Ptr 1)
               = Some "Test Patient"%string)
    by (vm_compute; reflexivity).
  split; [exact E|]. split; [exact ND|]. split; [exact Hb|].
  split; [exact Hb'|].
  exact (proj2 (read_keeps_tails
                  (Ptr 1) (Ptr 2) (Ptr 3) (Ptr 4) (Ptr 5) (Ptr 6)
                  (Ptr 7) (Ptr 8) (Ptr 9) (Ptr 10) (Ptr 11)
                  (Ptr 12) 0 w_missing (after_read w_missing) E ND
                  (Ptr 1) _ _ _ Hp Hb Hb' Hs)).
Defined.

Lemma read_idempotent_witness :
  run_read w_zeros = Some (0, after_read w_zeros) /\ NoDup outputs /\
  read_dicom_file_simple NULL
    (Ptr 1) (Ptr 2) (Ptr 3) (Ptr 4) (Ptr 5) (Ptr 6)
    (Ptr 7) (Ptr 8) (Ptr 9) (Ptr 10) (Ptr 11) (after_read w_zeros)
  = Some (0, after_read w_zeros).
Proof.
  assert (E : run_read w_zeros = Some (0, after_read w_zeros))
    by (vm_compute; reflexivity).
  assert (ND : NoDup outputs) by by_decide.
  split; [exact E|]. split; [exact ND|].
  exact (read_idempotent
           (Ptr 1) (Ptr 2) (Ptr 3) (Ptr 4) (Ptr 5) (Ptr 6)
           (Ptr 7) (Ptr 8) (Ptr 9) (Ptr 10) (Ptr 11)
           (Ptr 12) NULL 0 w_zeros (after_read w_zeros) E ND).
Defined.
